(** * dex-operator: the DexServer reconciler

    A shallow embedding of [controllers/dexserver_controller.go] and of the
    pod-template part of [deploy/dex-server/deployment.yaml], with the
    properties of the convergence pass, the mutual-TLS bundle, the status
    merge, the restart predicate and the drift fingerprint.

    Functions keep their Go names.  A function that talks to the cluster
    takes the world and returns it next to its results; an early [return]
    is the branch that ends there.  Log calls are left out: they decide
    nothing.  Of [SetupWithManager] only the restart predicate is
    embedded. *)

From Stdlib Require Import ZArith Lia Ascii String List.
From stdpp Require Import base option list gmap strings finite.

Local Open Scope string_scope.
Local Open Scope Z_scope.
Local Open Scope list_scope.

(** ** Go values *)

(** A Go [error] value: its [Error()] text and what
    [kubeerrors.IsNotFound] answers on it.  A nil error is [None]. *)
Record error := mkError { Error : string; IsNotFound : bool }.

(** A Go [(T, error)] pair of which exactly one side is meaningful. *)
Definition Result (A : Type) : Type := A + error.

(** [fmt.Errorf] with a constant text, and [errors.Wrap] of pkg/errors,
    which prefixes the text and keeps the cause. *)
Definition Errorf (msg : string) : error := mkError msg false.
Definition Wrap (err : error) (msg : string) : error :=
  mkError (msg +:+ ": " +:+ Error err) (IsNotFound err).

(** [client.IgnoreNotFound]. *)
Definition IgnoreNotFound (err : error) : option error :=
  if IsNotFound err then None else Some err.

(** [time.Time]: an instant and the zone it is presented in. *)
Record Time := mkTime { UnixNano : Z; zoneOffset : Z }.

Definition zeroInstant : Z := -62135596800000000000.
Definition zeroTime : Time := mkTime zeroInstant 0.
Definition IsZero (t : Time) : bool := UnixNano t =? zeroInstant.
Definition UTC (t : Time) : Time := mkTime (UnixNano t) 0.

(** [time.Duration], in nanoseconds. *)
Definition Hour : Z := 3600000000000.

(** A map read of Go: the zero value when the key is absent (also on a
    nil map). *)
Definition index (m : gmap string string) (k : string) : string :=
  default "" (m !! k).

(** ** Constants of the controller *)

Definition SECRET_MTLS_NAME := "grpc-mtls".
Definition SECRET_WEB_TLS_SUFFIX := "-tls-secret".
Definition SERVICE_ACCOUNT_NAME := "dex-operator-dexsso".
Definition GRPC_SERVICE_NAME := "grpc".
Definition DEX_IMAGE_ENV_NAME := "RELATED_IMAGE_DEX".
Definition MTLS_CERT_EXPIRY_ANNOTATION := "auth.identitatem.io/expiry".
Definition IDP_CREDENTIAL_LABEL := "auth.identitatem.io/idp-credential".

(** ** Kubernetes objects *)

Record NamespacedName := mkNN { nnNamespace : string; nnName : string }.

Record OwnerReference :=
  mkOwnerReference { orKind : string; orName : string; orController : bool }.

Record ObjectMeta := mkObjectMeta {
  Name : string;
  Namespace : string;
  Labels : gmap string string;
  Annotations : gmap string string;
  OwnerReferences : list OwnerReference;
  Generation : Z
}.

Definition emptyMeta : ObjectMeta := mkObjectMeta "" "" ∅ ∅ [] 0.

(** [corev1.Secret] and [corev1.ConfigMap]; byte slices are strings. *)
Record Secret := mkSecret { secMeta : ObjectMeta; secData : gmap string string }.
Record ConfigMap := mkConfigMap { cmMeta : ObjectMeta; cmData : gmap string string }.

Definition emptySecret : Secret := mkSecret emptyMeta ∅.

(** [metav1.Condition], with the fields the controller sets and the status
    schema lists. *)
Record Condition := mkCondition {
  Type_ : string;
  Status : string;
  LastTransitionTime : Time;
  Reason : string;
  Message : string
}.

Definition ConditionTrue := "True".
Definition ConditionFalse := "False".

(** Modelled from the spec: the constant [DexServerConditionTypeApplied] of
    [api/v1alpha1], whose declaration is not among the sources; the
    condition type is "Applied". *)
Definition DexServerConditionTypeApplied := "Applied".

#[global] Instance error_eq_dec : EqDecision error.
Proof. solve_decision. Defined.
#[global] Instance Time_eq_dec : EqDecision Time.
Proof. solve_decision. Defined.
#[global] Instance Condition_eq_dec : EqDecision Condition.
Proof. solve_decision. Defined.
#[global] Instance NamespacedName_eq_dec : EqDecision NamespacedName.
Proof. solve_decision. Defined.

(** ** The DexServer API types

    [api/v1alpha1] declares them in a file that is not among the sources;
    the records have the fields the controller reads, under the names it
    reads them by. *)

(** [corev1.SecretReference]. *)
Record SecretReference := mkSecretReference { refName : string; refNamespace : string }.

Record Org := mkOrg { orgName : string; orgTeams : list string }.

Record GitHubConfigSpec := mkGitHub {
  ghClientID : string;
  ghClientSecretRef : SecretReference;
  ghRedirectURI : string;
  ghOrg : string;
  ghOrgs : list Org
}.

Record MicrosoftConfigSpec := mkMicrosoft {
  msClientID : string;
  msClientSecretRef : SecretReference;
  msRedirectURI : string;
  msTenant : string
}.

Record UserSearchSpec := mkUserSearch {
  usBaseDN : string; usFilter : string; usUsername : string; usScope : string;
  usIDAttr : string; usEmailAttr : string; usNameAttr : string
}.

Record UserMatcher := mkUserMatcher { umUserAttr : string; umGroupAttr : string }.

Record GroupSearchSpec := mkGroupSearch {
  gsBaseDN : string; gsFilter : string; gsScope : string;
  gsUserMatchers : list UserMatcher; gsNameAttr : string
}.

Definition emptyUserSearch : UserSearchSpec := mkUserSearch "" "" "" "" "" "" "".
Definition emptyGroupSearch : GroupSearchSpec := mkGroupSearch "" "" "" [] "".

Record LDAPConfigSpec := mkLDAP {
  ldapHost : string;
  ldapInsecureNoSSL : bool;
  ldapInsecureSkipVerify : bool;
  ldapStartTLS : bool;
  ldapRootCARef : SecretReference;
  ldapBindDN : string;
  ldapBindPWRef : SecretReference;
  ldapUsernamePrompt : string;
  ldapUserSearch : UserSearchSpec;
  ldapGroupSearch : GroupSearchSpec
}.

(** Modelled from the spec: the connector type tags of [api/v1alpha1], a
    string type with the three named constants GitHub, Microsoft and LDAP;
    any other string falls to the [default] arm of the switches. *)
Inductive ConnectorType :=
  | ConnectorTypeGitHub
  | ConnectorTypeMicrosoft
  | ConnectorTypeLDAP
  | ConnectorTypeOther (s : string).

(** Modelled from the spec: the strings behind the three constants. *)
Definition ConnectorType_string (t : ConnectorType) : string :=
  match t with
  | ConnectorTypeGitHub => "github"
  | ConnectorTypeMicrosoft => "microsoft"
  | ConnectorTypeLDAP => "ldap"
  | ConnectorTypeOther s => s
  end.

Record ConnectorSpec := mkConnector {
  connType : ConnectorType;
  connId : string;
  connName : string;
  connGitHub : GitHubConfigSpec;
  connMicrosoft : MicrosoftConfigSpec;
  connLDAP : LDAPConfigSpec
}.

(** Modelled from the spec: the specification instance of [api/v1alpha1],
    with its issuer URL, its ordered connectors, the name of its ingress
    certificate reference, and the conditions of its status. *)
Record DexServerSpec := mkDexServerSpec {
  Issuer : string;
  Connectors : list ConnectorSpec;
  IngressCertificateRef : string
}.

Record DexServer := mkDexServer {
  dsName : string;
  dsNamespace : string;
  Spec : DexServerSpec;
  Conditions : list Condition
}.

Definition set_Conditions (m : DexServer) (cs : list Condition) : DexServer :=
  mkDexServer (dsName m) (dsNamespace m) (Spec m) cs.

(** ** Values of the controller *)

(** Modelled from the spec: [MTLSCerts], declared beside
    [generateMTLSCerts] in a file that is not among the sources; as
    [defineMTLSSecret] reads it, the six PEM buffers of the CA, the server
    and the client, and the expiry of the server certificate. *)
Record MTLSCerts := mkMTLSCerts {
  caPEM : string;
  caPrivKeyPEM : string;
  certPEM : string;
  certPrivKeyPEM : string;
  clientPEM : string;
  clientPrivKeyPEM : string;
  expiry : Time
}.

Record DexConnectorConfigSpec := mkDexConnectorConfig {
  cfgClientID : string;
  cfgClientSecret : string;
  cfgRedirectURI : string;
  cfgOrg : string;
  cfgOrgs : list Org;
  cfgHostName : string;
  cfgTeamNameField : string;
  cfgLoadAllGroups : bool;
  cfgUseLoginAsID : bool;
  cfgTenant : string;
  cfgOnlySecurityGroups : bool;
  cfgGroups : list string;
  cfgHost : string;
  cfgInsecureNoSSL : bool;
  cfgInsecureSkipVerify : bool;
  cfgStartTLS : bool;
  cfgClientCA : string;
  cfgClientKey : string;
  cfgRootCAData : string;
  cfgBindDN : string;
  cfgBindPW : string;
  cfgUsernamePrompt : string;
  cfgUserSearch : UserSearchSpec;
  cfgGroupSearch : GroupSearchSpec;
  cfgRootCA : string
}.

Record DexConnectorSpec := mkDexConnector {
  dcType : string;
  dcId : string;
  dcName : string;
  dcConfig : DexConnectorConfigSpec
}.

Record Volume := mkVolume { volName : string; volSecretName : string }.
Record VolumeMount := mkVolumeMount { vmName : string; vmMountPath : string }.

(** The values handed to [dex-server/deployment.yaml]. *)
Record DeploymentValues := mkDeploymentValues {
  DexImage : string;
  DexConfigMapHash : string;
  dvServiceAccountName : string;
  TlsSecretName : string;
  MtlsSecretName : string;
  MtlsSecretExpiry : string;
  dvDexServer : DexServer;
  AdditionalVolumeMounts : string;
  AdditionalVolumes : string
}.

(** The anonymous [values] structs, one per template. *)
Inductive Values :=
  | ServiceAccountValues (ServiceAccountName : string) (m : DexServer)
  | ClusterRoleBindingValues
      (ClusterRoleName ServiceAccountName ClusterRoleBindingName : string)
      (m : DexServer)
  | DeploymentTemplateValues (v : DeploymentValues)
  | ServiceValues (ServingCertSecretName : string) (m : DexServer)
  | ServiceGrpcValues (GrpcServiceName : string) (m : DexServer)
  | ConfigMapValues (issuer ConnectorsYaml : string) (m : DexServer)
  | IngressValues (Host : string) (m : DexServer) (IngressCertificateName : string).

(** [ctrl.Result]. *)
Record CtrlResult := mkCtrlResult { Requeue : bool; RequeueAfter : Z }.
Definition noRequeue : CtrlResult := mkCtrlResult false 0.

(** ** Collaborators *)

(** Code that runs against the outside world [W] threads it through. *)
Definition M (W A : Type) : Type := W → W * A.

#[global] Instance M_ret {W} : MRet (M W) := λ A a w, (w, a).
#[global] Instance M_bind {W} : MBind (M W) :=
  λ A B f m w, let '(w1, a) := m w in f a w1.

(** Exposes the threading of the world in a goal. *)
Ltac unfold_M := unfold mbind, M_bind, mret, M_ret in *.

(** The pure functions of the Go standard library and of ghodss/yaml that
    the controller calls, and the process environment. *)
Class GoLib := {
  os_Getenv : string → string;
  time_Parse_RFC3339 : string → Result Time;
  yaml_Marshal_VolumeMounts : list VolumeMount → Result string;
  yaml_Marshal_Volumes : list Volume → Result string;
  yaml_Marshal_Connectors : list DexConnectorSpec → Result string;
  json_Marshal_ConfigMap : ConfigMap → Result string;
  (** [url.Parse] followed by [.Host]; the source drops the parse error
      and reads the field, so only issuers that parse are covered. *)
  url_Parse_Host : string → string
}.

(** The cluster client, the manifest applier and the clock, and the two
    certificate helpers of the package, [generateMTLSCerts] and
    [inCertRenewalWindow], whose file is not among the sources: all are
    taken as given, and each may read and change the world.  A failed
    read leaves the object of the caller as it was, and an update leaves
    the caller its copy. *)
Class Runtime (W : Type) := {
  Get_DexServer : NamespacedName → M W (Result DexServer);
  Get_Secret : NamespacedName → M W (Result Secret);
  Get_ConfigMap : NamespacedName → M W (Result ConfigMap);
  Create_Secret : Secret → M W (option error);
  Update_Secret : Secret → M W (option error);
  Status_Update : DexServer → M W (option error);
  ApplyDirectly : DexServer → Values → list string → M W (option error);
  ApplyDeployments : DexServer → Values → list string → M W (option error);
  ApplyCustomResources : DexServer → Values → list string → M W (option error);
  generateMTLSCerts : string → M W (Result MTLSCerts);
  inCertRenewalWindow : Time → M W bool;
  time_Now : M W Time
}.

(** ** SHA-256 and lower-case hexadecimal

    [crypto/sha256] and the [%x] verb of [fmt], over byte strings. *)
Module SHA256.

Definition wrap32 (x : Z) : Z := x mod 2^32.
Definition add32 (x y : Z) : Z := wrap32 (x + y).
Definition rotr (n x : Z) : Z :=
  wrap32 (Z.lor (Z.shiftr x n) (Z.shiftl x (32 - n))).
Definition not32 (x : Z) : Z := Z.lxor x 0xffffffff.

Definition Ch (x y z : Z) : Z := Z.lxor (Z.land x y) (Z.land (not32 x) z).
Definition Maj (x y z : Z) : Z :=
  Z.lxor (Z.lxor (Z.land x y) (Z.land x z)) (Z.land y z).
Definition bigSigma0 (x : Z) : Z := Z.lxor (Z.lxor (rotr 2 x) (rotr 13 x)) (rotr 22 x).
Definition bigSigma1 (x : Z) : Z := Z.lxor (Z.lxor (rotr 6 x) (rotr 11 x)) (rotr 25 x).
Definition smallSigma0 (x : Z) : Z := Z.lxor (Z.lxor (rotr 7 x) (rotr 18 x)) (Z.shiftr x 3).
Definition smallSigma1 (x : Z) : Z := Z.lxor (Z.lxor (rotr 17 x) (rotr 19 x)) (Z.shiftr x 10).

(** The round constants are the first thirty-two bits of the fractional
    parts of the cube roots of the first sixty-four primes, and the
    initial state those of the square roots of the first eight. *)
Definition is_prime (n : Z) : bool :=
  forallb (λ d, negb (n mod d =? 0)) (seqZ 2 (n - 2)).

Definition primes : list Z := filter (λ n, is_prime n = true) (seqZ 2 310).

(** The integer cube root, bit by bit from the top. *)
Definition cube_root (n : Z) : Z :=
  foldl (λ r b, let r' := r + 2 ^ b in if r' * r' * r' <=? n then r' else r)
        0 (reverse (seqZ 0 40)).

Definition K : list Z := (λ p, wrap32 (cube_root (p * 2 ^ 96))) <$> primes.

Definition init : list Z := (λ p, wrap32 (Z.sqrt (p * 2 ^ 64))) <$> take 8 primes.

Definition byte_of_ascii (c : ascii) : Z := Z.of_N (N_of_ascii c).
Definition ascii_of_byte (b : Z) : ascii := ascii_of_N (Z.to_N (b mod 256)).

Fixpoint bytes_of_string (s : string) : list Z :=
  match s with
  | EmptyString => []
  | String c s' => byte_of_ascii c :: bytes_of_string s'
  end.

(** Big-endian bytes of a number, [n] of them. *)
Fixpoint be_bytes (n : nat) (x : Z) : list Z :=
  match n with
  | O => []
  | S n' => (x / 256 ^ Z.of_nat n') mod 256 :: be_bytes n' x
  end.

Definition be_word (bs : list Z) : Z := foldl (λ acc b, acc * 256 + b) 0 bs.

(** The message, a one bit, zeroes up to 56 modulo 64, and the length in
    bits on eight bytes. *)
Definition pad (msg : list Z) : list Z :=
  let len := Z.of_nat (length msg) in
  msg ++ [0x80] ++ replicate (Z.to_nat ((55 - len) mod 64)) 0
      ++ be_bytes 8 (8 * len).

Fixpoint chunks (fuel : nat) (size : nat) (l : list Z) : list (list Z) :=
  match fuel, l with
  | O, _ | _, [] => []
  | S fuel', _ => take size l :: chunks fuel' size (drop size l)
  end.

Definition words_of_block (block : list Z) : list Z :=
  be_word <$> chunks 16 4 block.

(** The message schedule: sixteen words of the block, extended to
    sixty-four. *)
Fixpoint extend (n : nat) (w : list Z) : list Z :=
  match n with
  | O => w
  | S n' =>
      let t := length w in
      let at_ (k : nat) := nth (t - k) w 0 in
      extend n' (w ++ [add32 (add32 (smallSigma1 (at_ 2%nat)) (at_ 7%nat))
                             (add32 (smallSigma0 (at_ 15%nat)) (at_ 16%nat))])
  end.

Definition State : Type := Z * Z * Z * Z * Z * Z * Z * Z.

Definition round (st : State) (kw : Z * Z) : State :=
  let '(a, b, c, d, e, f, g, h) := st in
  let t1 := add32 (add32 (add32 h (bigSigma1 e)) (add32 (Ch e f g) (fst kw))) (snd kw) in
  let t2 := add32 (bigSigma0 a) (Maj a b c) in
  (add32 t1 t2, a, b, c, add32 d t1, e, f, g).

Definition compress (st : State) (block : list Z) : State :=
  let w := extend 48 (words_of_block block) in
  let '(a, b, c, d, e, f, g, h) := foldl round st (zip K w) in
  let '(a0, b0, c0, d0, e0, f0, g0, h0) := st in
  (add32 a0 a, add32 b0 b, add32 c0 c, add32 d0 d,
   add32 e0 e, add32 f0 f, add32 g0 g, add32 h0 h).

Definition initState : State :=
  (nth 0 init 0, nth 1 init 0, nth 2 init 0, nth 3 init 0,
   nth 4 init 0, nth 5 init 0, nth 6 init 0, nth 7 init 0).

Definition digest_bytes (st : State) : list Z :=
  let '(a, b, c, d, e, f, g, h) := st in
  be_bytes 4 a ++ be_bytes 4 b ++ be_bytes 4 c ++ be_bytes 4 d ++
  be_bytes 4 e ++ be_bytes 4 f ++ be_bytes 4 g ++ be_bytes 4 h.

(** [h := sha256.New(); h.Write(data); h.Sum(nil)]: thirty-two bytes. *)
Definition Sum (data : string) : list ascii :=
  let padded := pad (bytes_of_string data) in
  let blocks := chunks (length padded) 64 padded in
  ascii_of_byte <$> digest_bytes (foldl compress initState blocks).

Definition hexdigit (n : Z) : ascii :=
  nth (Z.to_nat n) (list_ascii_of_string "0123456789abcdef") "0"%char.

(** [fmt.Sprintf("%x", bytes)]: two lower-case digits per byte. *)
Fixpoint hex (bytes : list ascii) : string :=
  match bytes with
  | [] => EmptyString
  | c :: rest =>
      let b := byte_of_ascii c in
      String (hexdigit (b / 16)) (String (hexdigit (b mod 16)) (hex rest))
  end.

End SHA256.


(** ** Formatting a time

    [t.Format(time.RFC3339)] for years 0 to 9999: the civil date and the
    time of day in the zone of [t], then [Z] for a zero offset and
    [+hh:mm] or [-hh:mm] otherwise. *)
Module time.

(** The proleptic Gregorian date of a day number counted from the Unix
    epoch. *)
Definition civil_from_days (z : Z) : Z * Z * Z :=
  let z := z + 719468 in
  let era := z / 146097 in
  let doe := z - era * 146097 in
  let yoe := (doe - doe / 1460 + doe / 36524 - doe / 146096) / 365 in
  let doy := doe - (365 * yoe + yoe / 4 - yoe / 100) in
  let mp := (5 * doy + 2) / 153 in
  let d := doy - (153 * mp + 2) / 5 + 1 in
  let m := if mp <? 10 then mp + 3 else mp - 9 in
  let y := yoe + era * 400 in
  (if m <=? 2 then y + 1 else y, m, d).

Definition days_from_civil (y m d : Z) : Z :=
  let y := if m <=? 2 then y - 1 else y in
  let era := y / 400 in
  let yoe := y - era * 400 in
  let doy := (153 * (if 2 <? m then m - 3 else m + 9) + 2) / 5 + d - 1 in
  let doe := yoe * 365 + yoe / 4 - yoe / 100 + doy in
  era * 146097 + doe - 719468.

Definition digit (d : Z) : ascii := ascii_of_N (Z.to_N (48 + d mod 10)).

(** [x] in decimal on [width] digits, zero padded. *)
Fixpoint digits (width : nat) (x : Z) : string :=
  match width with
  | O => EmptyString
  | S w => String (digit (x / 10 ^ Z.of_nat w)) (digits w x)
  end.

Definition zone (offset : Z) : string :=
  if offset =? 0 then "Z"
  else
    let a := Z.abs offset in
    (if offset <? 0 then "-" else "+")
      +:+ digits 2 (a / 3600) +:+ ":" +:+ digits 2 (a mod 3600 / 60).

Definition Format_RFC3339 (t : Time) : string :=
  let secs := UnixNano t / 1000000000 + zoneOffset t in
  let '(y, m, d) := civil_from_days (secs / 86400) in
  let rem := secs mod 86400 in
  digits 4 y +:+ "-" +:+ digits 2 m +:+ "-" +:+ digits 2 d +:+ "T"
    +:+ digits 2 (rem / 3600) +:+ ":" +:+ digits 2 (rem mod 3600 / 60)
    +:+ ":" +:+ digits 2 (rem mod 60) +:+ zone (zoneOffset t).

End time.

(** ** The controller *)

Section Controller.
Context `{GoLib} {W : Type} `{Runtime W}.

(** *** Status aggregator *)

(** [meta.FindStatusCondition] of k8s.io/apimachinery: the first condition
    of that type, as its position in the slice. *)
Fixpoint FindStatusCondition (conditions : list Condition)
    (conditionType : string) : option nat :=
  match conditions with
  | [] => None
  | c :: rest =>
      if decide (Type_ c = conditionType) then Some O
      else S <$> FindStatusCondition rest conditionType
  end.

(** [meta.SetStatusCondition] of k8s.io/apimachinery, the library
    function that [mergeStatusConditions] calls for every new condition,
    after its documentation: an absent type is appended, stamped with the
    current time when it carries none; a present one keeps its place,
    takes the new reason and message, and changes status and transition
    time only when the status differs. *)
Definition SetStatusCondition (conditions : list Condition)
    (newCondition : Condition) : M W (list Condition) :=
  match FindStatusCondition conditions (Type_ newCondition) with
  | None =>
      if IsZero (LastTransitionTime newCondition) then
        now ← time_Now;
        mret (conditions ++
              [mkCondition (Type_ newCondition) (Status newCondition) now
                 (Reason newCondition) (Message newCondition)])
      else mret (conditions ++ [newCondition])
  | Some i =>
      let existingCondition := default newCondition (conditions !! i) in
      let store (status : string) (ltt : Time) :=
        <[i := mkCondition (Type_ existingCondition) status ltt
                 (Reason newCondition) (Message newCondition)]> conditions in
      if decide (Status existingCondition ≠ Status newCondition) then
        if negb (IsZero (LastTransitionTime newCondition)) then
          mret (store (Status newCondition) (LastTransitionTime newCondition))
        else
          now ← time_Now;
          mret (store (Status newCondition) now)
      else
        mret (store (Status existingCondition)
                (LastTransitionTime existingCondition))
  end.

(** The [for _, condition := range newConditions] loop. *)
Fixpoint mergeEach (merged newConditions : list Condition)
    : M W (list Condition) :=
  match newConditions with
  | [] => mret merged
  | condition :: rest =>
      merged' ← SetStatusCondition merged condition;
      mergeEach merged' rest
  end.

Definition mergeStatusConditions (conditions newConditions : list Condition)
    : M W (list Condition) :=
  let merged := [] ++ conditions in
  mergeEach merged newConditions.

(** The instance is mutated in place and then written; the mutated
    instance is returned next to the error. *)
Definition updateDexServerStatusConditions (dexServer : DexServer)
    (newConditions : list Condition) : M W (DexServer * option error) :=
  conds ← mergeStatusConditions (Conditions dexServer) newConditions;
  let dexServer := set_Conditions dexServer conds in
  err ← Status_Update dexServer;
  mret (dexServer, err).

(** *** Connector credentials *)

Definition set_Label (secret : Secret) (k v : string) : Secret :=
  let m := secMeta secret in
  mkSecret (mkObjectMeta (Name m) (Namespace m) (<[k := v]> (Labels m))
              (Annotations m) (OwnerReferences m) (Generation m))
           (secData secret).

(** [r.Get(ctx, key, resource)]: the object is filled on success and left
    as it was on failure. *)
Definition Get_Secret_into (resource : Secret) (key : NamespacedName)
    : M W (Secret * option error) :=
  r ← Get_Secret key;
  mret match r with
       | inl found => (found, None)
       | inr err => (resource, Some err)
       end.

(** The error of the update is logged and dropped.  The copy the caller
    holds keeps its data. *)
Definition checkAndAddLabelToSecret (secret : Secret) : M W Secret :=
  match Labels (secMeta secret) !! IDP_CREDENTIAL_LABEL with
  | Some _ => mret secret
  | None =>
      let secret := set_Label secret IDP_CREDENTIAL_LABEL "" in
      _ ← Update_Secret secret;
      mret secret
  end.

(** The three known arms differ in the reference and the data key. *)
Definition secretFromRef (ref : SecretReference) (key : string)
    (m : DexServer) : M W (string * option error) :=
  let secretName := refName ref in
  let secretNamespace :=
    if decide (refNamespace ref = "") then dsNamespace m else refNamespace ref in
  '(resource, err) ← Get_Secret_into emptySecret (mkNN secretNamespace secretName);
  match err with
  | Some e =>
      if IsNotFound e then mret ("", Some e)
      else
        resource ← checkAndAddLabelToSecret resource;
        mret (index (secData resource) key, None)
  | None =>
      resource ← checkAndAddLabelToSecret resource;
      mret (index (secData resource) key, None)
  end.

Definition getConnectorSecretFromRef (connector : ConnectorSpec)
    (m : DexServer) : M W (string * option error) :=
  match connType connector with
  | ConnectorTypeGitHub =>
      secretFromRef (ghClientSecretRef (connGitHub connector)) "clientSecret" m
  | ConnectorTypeMicrosoft =>
      secretFromRef (msClientSecretRef (connMicrosoft connector)) "clientSecret" m
  | ConnectorTypeLDAP =>
      secretFromRef (ldapBindPWRef (connLDAP connector)) "bindPW" m
  | ConnectorTypeOther _ =>
      mret ("", Some (Errorf "could not retrieve secret"))
  end.

(** *** The mutual-TLS credential bundle *)

(** [ctrl.SetControllerReference(m, secretSpec, r.Scheme)]; its error is
    dropped by the caller. *)
Definition controllerReference (m : DexServer) : OwnerReference :=
  mkOwnerReference "DexServer" (dsName m) true.

Definition defineMTLSSecret (m : DexServer) (mtlsCerts : MTLSCerts) : Secret :=
  let labels : gmap string string := {[ "app" := dsName m ]} in
  let annotations : gmap string string :=
    {[ MTLS_CERT_EXPIRY_ANNOTATION :=
         time.Format_RFC3339 (UTC (expiry mtlsCerts)) ]} in
  mkSecret
    (mkObjectMeta SECRET_MTLS_NAME (dsNamespace m) labels annotations
       [controllerReference m] 0)
    (list_to_map [
       ("ca.crt", caPEM mtlsCerts);
       ("ca.key", caPrivKeyPEM mtlsCerts);
       ("tls.crt", certPEM mtlsCerts +:+ certPEM mtlsCerts);
       ("tls.key", certPrivKeyPEM mtlsCerts);
       ("client.crt", clientPEM mtlsCerts +:+ clientPEM mtlsCerts);
       ("client.key", clientPrivKeyPEM mtlsCerts) ]).

Definition getMTLSSecret (m : DexServer) : M W (Result Secret) :=
  Get_Secret (mkNN (dsNamespace m) SECRET_MTLS_NAME).

Definition manageMTLSSecret (dexServer : DexServer) : M W (option error) :=
  (* what follows the lookup, with the two flags it has set *)
  let write (secretExists regenerate : bool) : M W (option error) :=
    if negb secretExists || regenerate then
      r ← generateMTLSCerts (dsNamespace dexServer);
      match r : Result MTLSCerts with
      | inr err => mret (Some (Wrap err "error generating mtls certs"))
      | inl mTLSCerts =>
          let spec := defineMTLSSecret dexServer mTLSCerts in
          if negb secretExists then
            err ← Create_Secret spec;
            match err : option error with
            | Some err => mret (Some (Wrap err "error creating mtls secret"))
            | None => mret None
            end
          else
            err ← Update_Secret spec;
            match err : option error with
            | Some err => mret (Some (Wrap err "error updating mtls secret"))
            | None => mret None
            end
      end
    else mret None in
  r ← getMTLSSecret dexServer;
  match r : Result Secret with
  | inr err =>
      if negb (IsNotFound err) then
        mret (Some (Wrap err "error getting mtls secret"))
      else write false false
  | inl secret =>
      let expiry := index (Annotations (secMeta secret)) MTLS_CERT_EXPIRY_ANNOTATION in
      if decide (expiry = "") then write true true
      else
        let '(expiryTime, regenerate) :=
          match time_Parse_RFC3339 expiry with
          | inr _ => (zeroTime, true)
          | inl t => (t, false)
          end in
        inWindow ← inCertRenewalWindow expiryTime;
        write true (if (inWindow : bool) then true else regenerate)
  end.

(** *** Steps that only render and apply a template *)

Definition syncServiceAccount (dexServer : DexServer) : M W (option error) :=
  let values := ServiceAccountValues SERVICE_ACCOUNT_NAME dexServer in
  let files := ["dex-server/service_account.yaml"] in
  ApplyDirectly dexServer values files.

Definition syncClusterRoleBinding (dexServer : DexServer) : M W (option error) :=
  let clusterRoleBindingName :=
    SERVICE_ACCOUNT_NAME +:+ "-" +:+ dsNamespace dexServer in
  let values :=
    ClusterRoleBindingValues SERVICE_ACCOUNT_NAME SERVICE_ACCOUNT_NAME
      clusterRoleBindingName dexServer in
  let files := ["dex-server/cluster_role_binding.yaml"] in
  ApplyDirectly dexServer values files.

Definition syncService (dexServer : DexServer) : M W (option error) :=
  let values :=
    ServiceValues (dsName dexServer +:+ SECRET_WEB_TLS_SUFFIX) dexServer in
  let files := ["dex-server/service_http.yaml"] in
  ApplyDirectly dexServer values files.

Definition syncServiceGrpc (dexServer : DexServer) : M W (option error) :=
  let values := ServiceGrpcValues GRPC_SERVICE_NAME dexServer in
  let files := ["dex-server/service_grpc.yaml"] in
  ApplyDirectly dexServer values files.

Definition syncIngress (dexServer : DexServer) : M W (option error) :=
  let routeHost := url_Parse_Host (Issuer (Spec dexServer)) in
  let ingressCertificateRefName := IngressCertificateRef (Spec dexServer) in
  let values := IngressValues routeHost dexServer ingressCertificateRefName in
  let files := ["dex-server/ingress.yaml"] in
  ApplyCustomResources dexServer values files.

(** *** The configuration resource *)

(** The composite literals of the three arms; the fields they leave out
    are zero. *)
Definition githubConfig (clientID clientSecret redirectURI org : string)
    (orgs : list Org) : DexConnectorConfigSpec :=
  mkDexConnectorConfig clientID clientSecret redirectURI org orgs
    "" "" false false "" false [] "" false false false "" "" "" "" "" ""
    emptyUserSearch emptyGroupSearch "".

Definition microsoftConfig (clientID clientSecret redirectURI tenant : string)
    : DexConnectorConfigSpec :=
  mkDexConnectorConfig clientID clientSecret redirectURI "" []
    "" "" false false tenant false [] "" false false false "" "" "" "" "" ""
    emptyUserSearch emptyGroupSearch "".

Definition ldapConfig (host : string)
    (insecureNoSSL insecureSkipVerify startTLS : bool)
    (rootCA clientCA clientKey bindDN bindPW usernamePrompt : string)
    (userSearch : UserSearchSpec) (groupSearch : GroupSearchSpec)
    : DexConnectorConfigSpec :=
  mkDexConnectorConfig "" "" "" "" []
    "" "" false false "" false [] host insecureNoSSL insecureSkipVerify
    startTLS clientCA clientKey "" bindDN bindPW usernamePrompt
    userSearch groupSearch rootCA.

(** The files of the root CA secret that the LDAP connector will find
    mounted; [None] when the function returns from inside. *)
Definition ldapCertPaths (connector : ConnectorSpec) (dexServer : DexServer)
    : M W (option (string * string * string)) :=
  let ref := ldapRootCARef (connLDAP connector) in
  if decide (refName ref ≠ "") then
    let secretName := refName ref in
    let secretNamespace :=
      if decide (refNamespace ref = "") then dsNamespace dexServer
      else refNamespace ref in
    resource ← checkAndAddLabelToSecret emptySecret;
    '(resource, err) ← Get_Secret_into resource (mkNN secretNamespace secretName);
    if match err : option error with Some e => IsNotFound e | None => false end
    then mret None
    else
      let dir := "/etc/dex/ldapcerts/" +:+ connId connector in
      let path (key : string) :=
        if decide (index (secData resource) key ≠ "") then dir +:+ "/" +:+ key
        else "" in
      mret (Some (path "ca.crt", path "tls.crt", path "tls.key"))
  else mret (Some ("", "", "")).

(** The [for _, connector := range dexServer.Spec.Connectors] loop;
    [None] when an arm returns from the function. *)
Fixpoint syncConfigMap_range (dexServer : DexServer) (range : list ConnectorSpec)
    (connectors : list DexConnectorSpec) : M W (option (list DexConnectorSpec)) :=
  match range with
  | [] => mret (Some connectors)
  | connector :: rest =>
      match connType connector with
      | ConnectorTypeGitHub =>
          '(clientSecret, err) ← getConnectorSecretFromRef connector dexServer;
          match err : option error with
          | Some _ => mret None
          | None =>
              let gh := connGitHub connector in
              let newConnector :=
                mkDexConnector (ConnectorType_string ConnectorTypeGitHub)
                  (connId connector) (connName connector)
                  (githubConfig (ghClientID gh) clientSecret (ghRedirectURI gh)
                     (ghOrg gh) (ghOrgs gh)) in
              syncConfigMap_range dexServer rest (connectors ++ [newConnector])
          end
      | ConnectorTypeMicrosoft =>
          '(clientSecret, err) ← getConnectorSecretFromRef connector dexServer;
          match err : option error with
          | Some _ => mret None
          | None =>
              let ms := connMicrosoft connector in
              let newConnector :=
                mkDexConnector (ConnectorType_string ConnectorTypeMicrosoft)
                  (connId connector) (connName connector)
                  (microsoftConfig (msClientID ms) clientSecret
                     (msRedirectURI ms) (msTenant ms)) in
              syncConfigMap_range dexServer rest (connectors ++ [newConnector])
          end
      | ConnectorTypeLDAP =>
          '(bindPW, err) ← getConnectorSecretFromRef connector dexServer;
          match err : option error with
          | Some _ => mret None
          | None =>
              paths ← ldapCertPaths connector dexServer;
              match paths : option (string * string * string) with
              | None => mret None
              | Some (rootCAPath, clientCAPath, clientKeyPath) =>
                  let ldap := connLDAP connector in
                  let us := ldapUserSearch ldap in
                  let gs := ldapGroupSearch ldap in
                  let userSearch :=
                    if decide (usBaseDN us ≠ "") then
                      mkUserSearch (usBaseDN us) (usFilter us) (usUsername us)
                        (usScope us) (usIDAttr us) (usEmailAttr us) (usNameAttr us)
                    else emptyUserSearch in
                  let groupSearch :=
                    if decide (gsBaseDN gs ≠ "") then
                      mkGroupSearch (gsBaseDN gs) (gsFilter gs) (gsScope gs)
                        (gsUserMatchers gs) (gsNameAttr gs)
                    else emptyGroupSearch in
                  let newConnector :=
                    mkDexConnector (ConnectorType_string ConnectorTypeLDAP)
                      (connId connector) (connName connector)
                      (ldapConfig (ldapHost ldap) (ldapInsecureNoSSL ldap)
                         (ldapInsecureSkipVerify ldap) (ldapStartTLS ldap)
                         rootCAPath clientCAPath clientKeyPath
                         (ldapBindDN ldap) bindPW (ldapUsernamePrompt ldap)
                         userSearch groupSearch) in
                  syncConfigMap_range dexServer rest (connectors ++ [newConnector])
              end
          end
      | ConnectorTypeOther _ => mret None
      end
  end.

Definition syncConfigMap (dexServer : DexServer) : M W (option error) :=
  r ← syncConfigMap_range dexServer (Connectors (Spec dexServer)) [];
  match r : option (list DexConnectorSpec) with
  | None => mret None
  | Some connectors =>
      match yaml_Marshal_Connectors connectors with
      | inr err => mret (Some err)
      | inl connectorYaml =>
          let values :=
            ConfigMapValues (Issuer (Spec dexServer)) connectorYaml dexServer in
          let files := ["dex-server/config_map.yaml"] in
          ApplyDirectly dexServer values files
      end
  end.

(** *** The deployment *)

Definition getDexImagePullSpec : Result string :=
  let imageName := os_Getenv DEX_IMAGE_ENV_NAME in
  if decide (String.length imageName = 0%nat) then
    inr (Errorf ("required environment variable " +:+ DEX_IMAGE_ENV_NAME
                   +:+ " is empty or not set"))
  else inl imageName.

(** The loop over the connectors that collects a volume and a mount for
    every LDAP connector with a root CA reference. *)
Definition ldapVolumes (connectors : list ConnectorSpec)
    : list VolumeMount * list Volume :=
  foldl (λ '(additionalVolumeMounts, additionalVolumes) connector,
           match connType connector with
           | ConnectorTypeLDAP =>
               if decide (refName (ldapRootCARef (connLDAP connector)) ≠ "") then
                 let newVolume :=
                   mkVolume ("ldapcerts-" +:+ connId connector)
                     (refName (ldapRootCARef (connLDAP connector))) in
                 let newVolumeMount :=
                   mkVolumeMount ("ldapcerts-" +:+ connId connector)
                     ("/etc/dex/ldapcerts/" +:+ connId connector) in
                 (additionalVolumeMounts ++ [newVolumeMount],
                  additionalVolumes ++ [newVolume])
               else (additionalVolumeMounts, additionalVolumes)
           | _ => (additionalVolumeMounts, additionalVolumes)
           end)
        ([], []) connectors.

(** The sha256 checksum of the config map, in hexadecimal. *)
Definition configHash (jsonData : string) : string :=
  SHA256.hex (SHA256.Sum jsonData).

Definition syncDeployment (dexServer : DexServer) : M W (option error) :=
  match getDexImagePullSpec with
  | inr err => mret (Some err)
  | inl dexImage =>
      let '(additionalVolumeMounts, additionalVolumes) :=
        ldapVolumes (Connectors (Spec dexServer)) in
      let '(additionalVolumeMountsYaml, additionalVolumesYaml) :=
        if decide (0 < length additionalVolumeMounts)%nat then
          (match yaml_Marshal_VolumeMounts additionalVolumeMounts with
           | inl y => y | inr _ => "" end,
           match yaml_Marshal_Volumes additionalVolumes with
           | inl y => y | inr _ => "" end)
        else ("", "") in
      (* what follows once the hash of the config map is known *)
      let apply (dexConfigMapHash : string) : M W (option error) :=
        r ← getMTLSSecret dexServer;
        let apply' (mtlsSecretExpiry : string) : M W (option error) :=
          let values :=
            mkDeploymentValues dexImage dexConfigMapHash SERVICE_ACCOUNT_NAME
              (dsName dexServer +:+ SECRET_WEB_TLS_SUFFIX) SECRET_MTLS_NAME
              mtlsSecretExpiry dexServer additionalVolumeMountsYaml
              additionalVolumesYaml in
          let files := ["dex-server/deployment.yaml"] in
          ApplyDeployments dexServer (DeploymentTemplateValues values) files in
        match r : Result Secret with
        | inr err =>
            if negb (IsNotFound err) then
              mret (Some (Wrap err "error getting dex server grpc mtls secret"))
            else apply' ""
        | inl mtlsSecret =>
            apply' (index (Annotations (secMeta mtlsSecret)) MTLS_CERT_EXPIRY_ANNOTATION)
        end in
      r ← Get_ConfigMap (mkNN (dsNamespace dexServer) (dsName dexServer));
      match r : Result ConfigMap with
      | inr err =>
          if negb (IsNotFound err) then mret (Some err) else apply ""
      | inl dexConfigMap =>
          match json_Marshal_ConfigMap dexConfigMap with
          | inr err => mret (Some err)
          | inl jsonData => apply (configHash jsonData)
          end
      end
  end.

(** *** The convergence pass *)

(** The block that follows a failed step: the condition is merged and
    written; the error of the write, if any, is returned in place of the
    error of the step. *)
Definition failed (dexServer : DexServer) (reason message : string)
    (err : error) : M W (CtrlResult * option error) :=
  let cond :=
    mkCondition DexServerConditionTypeApplied ConditionFalse zeroTime
      reason (message +:+ Error err) in
  '(_, uerr) ← updateDexServerStatusConditions dexServer [cond];
  match uerr : option error with
  | Some uerr => mret (noRequeue, Some uerr)
  | None => mret (noRequeue, Some err)
  end.

Definition Reconcile (req : NamespacedName) : M W (CtrlResult * option error) :=
  r ← Get_DexServer req;
  match r : Result DexServer with
  | inr err => mret (noRequeue, IgnoreNotFound err)
  | inl dexServer =>
  err ← manageMTLSSecret dexServer;
  match err : option error with
  | Some err =>
      failed dexServer "ConfigMTLSSecretFailed"
        "failed to configure MTLS secret. error: " err
  | None =>
  err ← syncConfigMap dexServer;
  match err : option error with
  | Some err =>
      failed dexServer "ConfigMapFailed" "failed to sync ConfigMap. error: " err
  | None =>
  err ← syncService dexServer;
  match err : option error with
  | Some err =>
      failed dexServer "ConfigHTTPServiceFailed"
        "failed to sync http service. error: " err
  | None =>
  err ← syncServiceGrpc dexServer;
  match err : option error with
  | Some err =>
      failed dexServer "ConfigGRPCServiceFailed"
        "failed to sync grpc service. error: " err
  | None =>
  err ← syncServiceAccount dexServer;
  match err : option error with
  | Some err =>
      failed dexServer "ConfigServiceAccountFailed"
        "failed to sync ServiceAccount. error: " err
  | None =>
  err ← syncClusterRoleBinding dexServer;
  match err : option error with
  | Some err =>
      failed dexServer "ConfigClusterRoleBindingFailed"
        "failed to sync ClusterRoleBinding. error: " err
  | None =>
  err ← syncDeployment dexServer;
  match err : option error with
  | Some err =>
      failed dexServer "ConfigDeploymentFailed"
        "failed to sync Deployment. error: " err
  | None =>
  err ← syncIngress dexServer;
  match err : option error with
  | Some err =>
      failed dexServer "ConfigIngressFailed" "failed to sync Ingress. error: " err
  | None =>
  let cond :=
    mkCondition DexServerConditionTypeApplied ConditionTrue zeroTime
      "Applied" "DexServer is applied" in
  '(_, uerr) ← updateDexServerStatusConditions dexServer [cond];
  match uerr : option error with
  | Some uerr => mret (noRequeue, Some uerr)
  | None => mret (mkCtrlResult true (1 * Hour), None)
  end
  end end end end end end end end end.

(** *** The pass as the specification words it

    An ordered table of steps, each with its reason code and the text
    its message starts with, and one loop that runs them, stops at the
    first failure and records the condition. *)
Record Step := mkStep {
  stepAction : DexServer → M W (option error);
  stepReason : string;
  stepMessage : string
}.

Definition pass_steps_spec : list Step := [
  mkStep manageMTLSSecret "ConfigMTLSSecretFailed"
    "failed to configure MTLS secret. error: ";
  mkStep syncConfigMap "ConfigMapFailed" "failed to sync ConfigMap. error: ";
  mkStep syncService "ConfigHTTPServiceFailed"
    "failed to sync http service. error: ";
  mkStep syncServiceGrpc "ConfigGRPCServiceFailed"
    "failed to sync grpc service. error: ";
  mkStep syncServiceAccount "ConfigServiceAccountFailed"
    "failed to sync ServiceAccount. error: ";
  mkStep syncClusterRoleBinding "ConfigClusterRoleBindingFailed"
    "failed to sync ClusterRoleBinding. error: ";
  mkStep syncDeployment "ConfigDeploymentFailed"
    "failed to sync Deployment. error: ";
  mkStep syncIngress "ConfigIngressFailed" "failed to sync Ingress. error: "
].

(** The condition of a failed step, and the condition of a pass in which
    every step succeeded. *)
Definition failure_condition_spec (s : Step) (err : error) : Condition :=
  mkCondition "Applied" "False" zeroTime (stepReason s)
    (stepMessage s +:+ Error err).

Definition applied_condition_spec : Condition :=
  mkCondition "Applied" "True" zeroTime "Applied" "DexServer is applied".

(** Runs the steps in order from [w]: the world after the last step that
    ran, and the error of the step that failed, if one did. *)
Fixpoint run_steps_spec (steps : list Step) (dexServer : DexServer)
    : M W (option (Step * error)) :=
  match steps with
  | [] => mret None
  | s :: rest =>
      err ← stepAction s dexServer;
      match err : option error with
      | Some err => mret (Some (s, err))
      | None => run_steps_spec rest dexServer
      end
  end.

Definition run_pass_spec (dexServer : DexServer)
    : M W (CtrlResult * option error) :=
  r ← run_steps_spec pass_steps_spec dexServer;
  match r : option (Step * error) with
  | Some (s, err) =>
      '(_, uerr) ← updateDexServerStatusConditions dexServer
                      [failure_condition_spec s err];
      mret (noRequeue, Some (default err uerr))
  | None =>
      '(_, uerr) ← updateDexServerStatusConditions dexServer
                      [applied_condition_spec];
      mret match uerr : option error with
           | Some uerr => (noRequeue, Some uerr)
           | None => (mkCtrlResult true 3600000000000, None)
           end
  end.

(** *** The bundle and the credentials as the specification words them *)

(** A fresh chain is generated, laid out as the bundle secret and handed
    to [write]; [text] is what the error of the write is wrapped in. *)
Definition regenerate_spec (write : Secret → M W (option error)) (text : string)
    (dexServer : DexServer) : M W (option error) :=
  r ← generateMTLSCerts (dsNamespace dexServer);
  match r : Result MTLSCerts with
  | inr err => mret (Some (Wrap err "error generating mtls certs"))
  | inl certs =>
      err ← write (defineMTLSSecret dexServer certs);
      mret ((λ e, Wrap e text) <$> (err : option error))
  end.

End Controller.

(** The secret a connector of a known type takes its credential from, and
    the data key it reads there. *)
Definition credentialRef (connector : ConnectorSpec)
    : option (SecretReference * string) :=
  match connType connector with
  | ConnectorTypeGitHub => Some (ghClientSecretRef (connGitHub connector), "clientSecret")
  | ConnectorTypeMicrosoft =>
      Some (msClientSecretRef (connMicrosoft connector), "clientSecret")
  | ConnectorTypeLDAP => Some (ldapBindPWRef (connLDAP connector), "bindPW")
  | ConnectorTypeOther _ => None
  end.

(** A reference without a namespace is looked up beside the instance. *)
Definition credentialKey (ref : SecretReference) (m : DexServer) : NamespacedName :=
  mkNN (if decide (refNamespace ref = "") then dsNamespace m else refNamespace ref)
       (refName ref).

(** The annotations of the pod template in [dex-server/deployment.yaml]:
    each of the two is rendered under an [if] on its value, which a
    template takes as false when the string is empty. *)
Definition podTemplateAnnotations (v : DeploymentValues) : gmap string string :=
  let withHash (m : gmap string string) :=
    if decide (DexConfigMapHash v ≠ "")
    then <["auth.identitatem.io/configHash" := DexConfigMapHash v]> m else m in
  let withExpiry (m : gmap string string) :=
    if decide (MtlsSecretExpiry v ≠ "")
    then <["auth.identitatem.io/grpcMtlsExpiry" := MtlsSecretExpiry v]> m else m in
  withExpiry (withHash ∅).

(** ** The restart predicate of owned deployments *)

(** [appsv1.Deployment], as the predicate reads it. *)
Record Deployment := mkDeployment {
  depMeta : ObjectMeta;
  depTemplateAnnotations : gmap string string
}.

(** [event.UpdateEvent]. *)
Record UpdateEvent := mkUpdateEvent { ObjectOld : Deployment; ObjectNew : Deployment }.

Definition restartedAt := "kubectl.kubernetes.io/restartedAt".

Module ignoreDeploymentRestartPredicate.

(** The key of a deployment in [restartsInProgress]. *)
Definition namespacedName (e : UpdateEvent) : string :=
  Namespace (depMeta (ObjectNew e)) +:+ ":" +:+ Name (depMeta (ObjectNew e)).

(** The part of [UpdateFunc] below the look-up of the restart in
    progress: a new restart is held and the event dropped. *)
Definition detectRestart (e : UpdateEvent) : M (gmap string Z) bool :=
  λ restartsInProgress,
  let newPodSpecAnnotations := depTemplateAnnotations (ObjectNew e) in
  let oldPodSpecAnnotations := depTemplateAnnotations (ObjectOld e) in
  match newPodSpecAnnotations !! restartedAt with
  | Some newDeploymentRestartedAt =>
      if bool_decide (size oldPodSpecAnnotations = 0%nat)
         || bool_decide (newDeploymentRestartedAt
                           ≠ index oldPodSpecAnnotations restartedAt)
      then (<[namespacedName e := Generation (depMeta (ObjectNew e))]>
              restartsInProgress, false)
      else (restartsInProgress, true)
  | None => (restartsInProgress, true)
  end.

(** The closure keeps [restartsInProgress] between calls; here the map
    goes in and comes out. *)
Definition UpdateFunc (e : UpdateEvent) : M (gmap string Z) bool :=
  λ restartsInProgress,
  match OwnerReferences (depMeta (ObjectOld e)) with
  | [] => (restartsInProgress, false)
  | owner :: _ =>
      if decide (orKind owner ≠ "DexServer") then (restartsInProgress, false)
      else
        match restartsInProgress !! namespacedName e with
        | Some restartInProgressGeneration =>
            if decide (restartInProgressGeneration
                         = Generation (depMeta (ObjectNew e)))
            then (restartsInProgress, false)
            else detectRestart e (delete (namespacedName e) restartsInProgress)
        | None => detectRestart e restartsInProgress
        end
  end.

(** The events of a run, in order, through the one closure. *)
Fixpoint run (events : list UpdateEvent) : M (gmap string Z) (list bool) :=
  match events with
  | [] => mret []
  | e :: rest =>
      verdict ← UpdateFunc e;
      verdicts ← run rest;
      mret (verdict :: verdicts)
  end.

(** A deployment whose first owner is a DexServer. *)
Definition owned (e : UpdateEvent) : Prop :=
  ∃ owner rest, OwnerReferences (depMeta (ObjectOld e)) = owner :: rest
                ∧ orKind owner = "DexServer".

(** The event starts a restart: the new pod template carries the
    annotation, and the old one has no annotations at all or another
    value. *)
Definition newRestart (e : UpdateEvent) : Prop :=
  ∃ v, depTemplateAnnotations (ObjectNew e) !! restartedAt = Some v
       ∧ (size (depTemplateAnnotations (ObjectOld e)) = 0%nat
          ∨ v ≠ index (depTemplateAnnotations (ObjectOld e)) restartedAt).

End ignoreDeploymentRestartPredicate.

(** ** The predicates of the instance and of the credential secrets

    The two other predicates that [SetupWithManager] builds. *)

#[global] Instance SecretReference_eq_dec : EqDecision SecretReference.
Proof. solve_decision. Defined.
#[global] Instance Org_eq_dec : EqDecision Org.
Proof. solve_decision. Defined.
#[global] Instance GitHubConfigSpec_eq_dec : EqDecision GitHubConfigSpec.
Proof. solve_decision. Defined.
#[global] Instance MicrosoftConfigSpec_eq_dec : EqDecision MicrosoftConfigSpec.
Proof. solve_decision. Defined.
#[global] Instance UserSearchSpec_eq_dec : EqDecision UserSearchSpec.
Proof. solve_decision. Defined.
#[global] Instance UserMatcher_eq_dec : EqDecision UserMatcher.
Proof. solve_decision. Defined.
#[global] Instance GroupSearchSpec_eq_dec : EqDecision GroupSearchSpec.
Proof. solve_decision. Defined.
#[global] Instance LDAPConfigSpec_eq_dec : EqDecision LDAPConfigSpec.
Proof. solve_decision. Defined.
#[global] Instance ConnectorType_eq_dec : EqDecision ConnectorType.
Proof. solve_decision. Defined.
#[global] Instance ConnectorSpec_eq_dec : EqDecision ConnectorSpec.
Proof. solve_decision. Defined.
#[global] Instance DexServerSpec_eq_dec : EqDecision DexServerSpec.
Proof. solve_decision. Defined.

(** An update event of a DexServer: the two objects and their finalizers,
    which the instance record does not hold. *)
Record DexServerUpdateEvent := mkDexServerUpdateEvent {
  FinalizersOld : list string;
  dexServerOld : DexServer;
  FinalizersNew : list string;
  dexServerNew : DexServer
}.

Module dexServerPredicate.

Definition GenericFunc (e : DexServer) : bool := false.
Definition DeleteFunc (e : DexServer) : bool := false.
Definition CreateFunc (e : DexServer) : bool := true.

(** [equality.Semantic.DeepEqual] on finalizers and on the spec: nil and
    empty slices count as equal there, and are one list here. *)
Definition UpdateFunc (e : DexServerUpdateEvent) : bool :=
  negb (bool_decide (FinalizersOld e = FinalizersNew e))
  || negb (bool_decide (Spec (dexServerOld e) = Spec (dexServerNew e))).

End dexServerPredicate.

Module secretPredicate.

(** The event is read through its new object only. *)
Definition UpdateFunc (ObjectNew : Secret) : bool :=
  match Labels (secMeta ObjectNew) !! IDP_CREDENTIAL_LABEL with
  | Some _ => true
  | None => false
  end.

End secretPredicate.

(** ** Volumes of the LDAP certificates

    The connectors that [syncDeployment] mounts a root CA secret for, and
    the volume and the mount it makes for one. *)
Definition mountsRootCA (connector : ConnectorSpec) : Prop :=
  connType connector = ConnectorTypeLDAP
  ∧ refName (ldapRootCARef (connLDAP connector)) ≠ "".

#[global] Instance mountsRootCA_dec (connector : ConnectorSpec)
  : Decision (mountsRootCA connector).
Proof. unfold mountsRootCA. apply _. Defined.

Definition certVolume (connector : ConnectorSpec) : Volume :=
  mkVolume ("ldapcerts-" +:+ connId connector)
    (refName (ldapRootCARef (connLDAP connector))).

Definition certMount (connector : ConnectorSpec) : VolumeMount :=
  mkVolumeMount ("ldapcerts-" +:+ connId connector)
    ("/etc/dex/ldapcerts/" +:+ connId connector).

(** The four texts that [manageMTLSSecret] wraps an error in. *)
Definition mtlsErrorTexts : list string :=
  ["error getting mtls secret"; "error generating mtls certs";
   "error creating mtls secret"; "error updating mtls secret"].

(** ** An in-memory cluster

    A store of objects by namespace and name, a clock, the list of the
    manifests applied so far, and two switches, one that makes status
    writes fail and one that makes reads of secrets fail;
    the examples below run the controller on it. *)
Module InMemory.

Record Cluster := mkCluster {
  dexServers : gmap (string * string) DexServer;
  secrets : gmap (string * string) Secret;
  configMaps : gmap (string * string) ConfigMap;
  applied : list (string * Values);
  clock : Z;
  statusConflict : bool;
  secretsUnreachable : bool
}.

Definition notFound (kind name : string) : error :=
  mkError (kind +:+ " " +:+ name +:+ " not found") true.
Definition alreadyExists (kind name : string) : error :=
  mkError (kind +:+ " " +:+ name +:+ " already exists") false.
Definition unreachable : error := mkError "connection refused" false.
Definition conflict : error :=
  mkError "the object has been modified; please apply your changes to the latest version and try again" false.

Definition key (nn : NamespacedName) : string * string := (nnNamespace nn, nnName nn).
Definition secretKey (s : Secret) : string * string :=
  (Namespace (secMeta s), Name (secMeta s)).

Definition set_secrets (w : Cluster) (m : gmap (string * string) Secret) : Cluster :=
  mkCluster (dexServers w) m (configMaps w) (applied w) (clock w) (statusConflict w)
    (secretsUnreachable w).
Definition set_dexServers (w : Cluster) (m : gmap (string * string) DexServer) : Cluster :=
  mkCluster m (secrets w) (configMaps w) (applied w) (clock w) (statusConflict w)
    (secretsUnreachable w).
Definition set_configMaps (w : Cluster) (m : gmap (string * string) ConfigMap) : Cluster :=
  mkCluster (dexServers w) (secrets w) m (applied w) (clock w) (statusConflict w)
    (secretsUnreachable w).
Definition set_applied (w : Cluster) (l : list (string * Values)) : Cluster :=
  mkCluster (dexServers w) (secrets w) (configMaps w) l (clock w) (statusConflict w)
    (secretsUnreachable w).

Definition get {A} (kind : string) (store : Cluster → gmap (string * string) A)
    (nn : NamespacedName) : M Cluster (Result A) :=
  λ w, (w, match store w !! key nn with
           | Some o => inl o
           | None => inr (notFound kind (nnName nn))
           end).

Definition create (s : Secret) : M Cluster (option error) :=
  λ w, match secrets w !! secretKey s with
       | Some _ => (w, Some (alreadyExists "secrets" (Name (secMeta s))))
       | None => (set_secrets w (<[secretKey s := s]> (secrets w)), None)
       end.

Definition update (s : Secret) : M Cluster (option error) :=
  λ w, match secrets w !! secretKey s with
       | Some _ => (set_secrets w (<[secretKey s := s]> (secrets w)), None)
       | None => (w, Some (notFound "secrets" (Name (secMeta s))))
       end.

Definition statusUpdate (m : DexServer) : M Cluster (option error) :=
  λ w, if statusConflict w then (w, Some conflict)
       else (set_dexServers w (<[(dsNamespace m, dsName m) := m]> (dexServers w)),
             None).

(** The applier notes every manifest; the config map template also
    leaves a config map named after the instance. *)
Definition apply (owner : DexServer) (values : Values) (files : list string)
    : M Cluster (option error) :=
  λ w,
  let w := set_applied w (applied w ++ ((λ f, (f, values)) <$> files)) in
  match values with
  | ConfigMapValues issuer connectorsYaml m =>
      let cm :=
        mkConfigMap
          (mkObjectMeta (dsName m) (dsNamespace m) ∅ ∅
             [mkOwnerReference "DexServer" (dsName owner) true] 0)
          {[ "config.yaml" := "issuer: " +:+ issuer +:+ connectorsYaml ]} in
      (set_configMaps w (<[(dsNamespace m, dsName m) := cm]> (configMaps w)), None)
  | _ => (w, None)
  end.

Definition day : Z := 24 * Hour.

(** A chain that expires in a year. *)
Definition generate (namespace : string) : M Cluster (Result MTLSCerts) :=
  λ w, (w, inl (mkMTLSCerts "CA;" "CAKEY;" "CERT;" "CERTKEY;" "CLIENT;"
                  "CLIENTKEY;" (mkTime (clock w + 365 * day) 0))).

(** A renewal window of one day before the expiry. *)
Definition inWindow (expiry : Time) : M Cluster bool :=
  λ w, (w, UnixNano expiry - day <? clock w).

#[export] Instance runtime : Runtime Cluster := {
  Get_DexServer := get "dexservers" dexServers;
  Get_Secret := λ nn w,
    if secretsUnreachable w then (w, inr unreachable)
    else get "secrets" secrets nn w;
  Get_ConfigMap := get "configmaps" configMaps;
  Create_Secret := create;
  Update_Secret := update;
  Status_Update := statusUpdate;
  ApplyDirectly := apply;
  ApplyDeployments := apply;
  ApplyCustomResources := apply;
  generateMTLSCerts := generate;
  inCertRenewalWindow := inWindow;
  time_Now := λ w, (w, mkTime (clock w) 0)
}.

(** Stand-ins for the library: a parser of the form
    [YYYY-MM-DDThh:mm:ssZ] only, and marshallers that list what the
    examples look at. *)
Definition number (s : string) : option Z :=
  foldl (λ acc c,
           n ← acc;
           let d := Z.of_N (N_of_ascii c) - 48 in
           if (0 <=? d) && (d <=? 9) then Some (10 * n + d) else None)
        (Some 0) (list_ascii_of_string s).

Definition parse (s : string) : Result Time :=
  let bad := inr (Errorf ("cannot parse " +:+ s +:+ " as a time")) in
  let field (from len : nat) := number (substring from len s) in
  if bool_decide (String.length s = 20%nat
                  ∧ substring 4 1 s = "-" ∧ substring 7 1 s = "-"
                  ∧ substring 10 1 s = "T" ∧ substring 13 1 s = ":"
                  ∧ substring 16 1 s = ":" ∧ substring 19 1 s = "Z")%nat
  then
    match field 0%nat 4%nat, field 5%nat 2%nat, field 8%nat 2%nat, field 11%nat 2%nat, field 14%nat 2%nat, field 17%nat 2%nat with
    | Some y, Some m, Some d, Some hh, Some mm, Some ss =>
        let days := time.days_from_civil y m d in
        if bool_decide (time.civil_from_days days = (y, m, d)
                        ∧ hh < 24 ∧ mm < 60 ∧ ss < 60)
        then inl (mkTime ((days * 86400 + hh * 3600 + mm * 60 + ss) * 1000000000) 0)
        else bad
    | _, _, _, _, _, _ => bad
    end
  else bad.

Definition connectorLine (c : DexConnectorSpec) : string :=
  "- type: " +:+ dcType c +:+ " id: " +:+ dcId c
    +:+ " secret: " +:+ cfgClientSecret (dcConfig c) +:+ cfgBindPW (dcConfig c) +:+ ";".

Definition lib (image : string) : GoLib := {|
  os_Getenv := λ name, if decide (name = DEX_IMAGE_ENV_NAME) then image else "";
  time_Parse_RFC3339 := parse;
  yaml_Marshal_VolumeMounts := λ l, inl (foldr (λ v acc, vmMountPath v +:+ ";" +:+ acc) "" l);
  yaml_Marshal_Volumes := λ l, inl (foldr (λ v acc, volSecretName v +:+ ";" +:+ acc) "" l);
  yaml_Marshal_Connectors := λ l, inl (foldr (λ c acc, connectorLine c +:+ acc) "" l);
  json_Marshal_ConfigMap := λ cm,
    inl ("{name:" +:+ Name (cmMeta cm) +:+ ",data:"
           +:+ index (cmData cm) "config.yaml" +:+ "}");
  url_Parse_Host := λ issuer,
    if String.prefix "https://" issuer
    then substring 8 (String.length issuer - 8)%nat issuer else issuer
|}.

End InMemory.

(** ** What a merge stores

    The record that [meta.SetStatusCondition] appends for an update of an
    absent type, and the record it leaves in the place of an existing one;
    [now] is the time it read. *)
Definition stamped (now : Time) (u : Condition) : Condition :=
  if IsZero (LastTransitionTime u)
  then mkCondition (Type_ u) (Status u) now
         (Reason u) (Message u)
  else u.

Definition overwritten (now : Time) (existing u : Condition) : Condition :=
  mkCondition (Type_ existing) (Status u)
    (if decide (Status existing = Status u) then LastTransitionTime existing
     else LastTransitionTime (stamped now u))
    (Reason u) (Message u).

(** ** Reading a digest back

    The value of a hexadecimal digit and the byte of two digits, the bits
    of a byte string, and the text of a bit string: what the properties of
    the fingerprint are stated with. *)
Definition unhexdigit (c : ascii) : Z :=
  let n := Z.of_N (N_of_ascii c) in
  if (48 <=? n) && (n <=? 57) then n - 48 else n - 87.

Definition unhex_byte (hi lo : ascii) : ascii :=
  SHA256.ascii_of_byte (16 * unhexdigit hi + unhexdigit lo).

Fixpoint unhex (s : string) : list ascii :=
  match s with
  | String hi (String lo rest) => unhex_byte hi lo :: unhex rest
  | _ => []
  end.

Definition bits_of_ascii (c : ascii) : list bool :=
  let 'Ascii b0 b1 b2 b3 b4 b5 b6 b7 := c in [b0; b1; b2; b3; b4; b5; b6; b7].

Definition bits_of_bytes (l : list ascii) : list bool := l ≫= bits_of_ascii.

Fixpoint text_of_bits (l : list bool) : string :=
  match l with
  | [] => EmptyString
  | b :: rest => String (if b then "1"%char else "0"%char) (text_of_bits rest)
  end.

(** ** Scenarios

    An instance with one GitHub connector, and clusters to run it in. *)
Module Scenario.

Definition emptyMicrosoft : MicrosoftConfigSpec :=
  mkMicrosoft "" (mkSecretReference "" "") "" "".
Definition emptyLDAP : LDAPConfigSpec :=
  mkLDAP "" false false false (mkSecretReference "" "") "" (mkSecretReference "" "")
    "" emptyUserSearch emptyGroupSearch.

Definition github : ConnectorSpec :=
  mkConnector ConnectorTypeGitHub "github" "GitHub"
    (mkGitHub "client-id" (mkSecretReference "github-oauth" "")
       "https://dex.example.com/callback" "example-org" [])
    emptyMicrosoft emptyLDAP.

Definition dexServer : DexServer :=
  mkDexServer "dex" "idp" (mkDexServerSpec "https://dex.example.com" [github] "") [].

Definition req : NamespacedName := mkNN "idp" "dex".

Definition image : string := "quay.io/dexidp/dex:v2.28.1".

(** The library with the image variable set. *)
Definition lib : GoLib := InMemory.lib image.

(** 9 November 2021, 13:00:00 UTC. *)
Definition noon : Z := 1636462800000000000.

(** The instance is stored; the secret its connector refers to is not. *)
Definition cluster : InMemory.Cluster :=
  InMemory.mkCluster {[ ("idp", "dex") := dexServer ]} ∅ ∅ [] noon false false.

Definition oauthSecret : Secret :=
  mkSecret (mkObjectMeta "github-oauth" "idp" ∅ ∅ [] 1)
    {[ "clientSecret" := "s3cr3t" ]}.

(** The same with the credential secret in place. *)
Definition clusterWithSecret : InMemory.Cluster :=
  InMemory.set_secrets cluster {[ ("idp", "github-oauth") := oauthSecret ]}.

(** A bundle whose expiry annotation is [annotation]. *)
Definition bundle (annotation : option string) : Secret :=
  mkSecret
    (mkObjectMeta SECRET_MTLS_NAME "idp" ∅
       (match annotation with
        | Some a => {[ MTLS_CERT_EXPIRY_ANNOTATION := a ]}
        | None => ∅
        end) [] 1)
    {[ "ca.crt" := "OLD" ]}.

Definition clusterWithBundle (annotation : option string) : InMemory.Cluster :=
  InMemory.set_secrets cluster {[ ("idp", SECRET_MTLS_NAME) := bundle annotation ]}.

(** Status writes fail with a conflict. *)
Definition conflicted : InMemory.Cluster :=
  InMemory.mkCluster {[ ("idp", "dex") := dexServer ]}
    {[ ("idp", "github-oauth") := oauthSecret ]} ∅ [] noon true false.

(** Reads of secrets fail with a transport error. *)
Definition unreachable : InMemory.Cluster :=
  InMemory.mkCluster {[ ("idp", "dex") := dexServer ]}
    {[ ("idp", "github-oauth") := oauthSecret ]} ∅ [] noon false true.

(** The config map of the instance is in place. *)
Definition clusterWithConfigMap : InMemory.Cluster :=
  InMemory.set_configMaps cluster
    {[ ("idp", "dex") :=
         mkConfigMap (mkObjectMeta "dex" "idp" ∅ ∅ [] 1)
           {[ "config.yaml" := "issuer: https://dex.example.com" ]} ]}.

(** The owned deployment at a generation, with or without a restart
    timestamp on its pod template. *)
Definition deployment (generation : Z) (restarted : option string) : Deployment :=
  mkDeployment
    (mkObjectMeta "dex" "idp" ∅ ∅ [mkOwnerReference "DexServer" "dex" true] generation)
    (match restarted with
     | Some t => {[ restartedAt := t; "auth.identitatem.io/configHash" := "cf84" ]}
     | None => {[ "auth.identitatem.io/configHash" := "cf84" ]}
     end).

Definition t1 : string := "2021-11-09T13:00:00Z".
Definition t2 : string := "2021-11-09T13:05:00Z".

(** A restart is stamped: generation 1 to 2. *)
Definition restart1 : UpdateEvent :=
  mkUpdateEvent (deployment 1 None) (deployment 2 (Some t1)).
(** Its rollout reports progress at generation 2. *)
Definition progress1 : UpdateEvent :=
  mkUpdateEvent (deployment 2 (Some t1)) (deployment 2 (Some t1)).
(** A second restart is stamped before anything else: generation 2 to 3. *)
Definition restart2 : UpdateEvent :=
  mkUpdateEvent (deployment 2 (Some t1)) (deployment 3 (Some t2)).
(** The template is changed otherwise: generation 2 to 3, same timestamp. *)
Definition change : UpdateEvent :=
  mkUpdateEvent (deployment 2 (Some t1)) (deployment 3 (Some t1)).
(** The timestamp is taken off the template: generation 3 to 4. *)
Definition unstamp : UpdateEvent :=
  mkUpdateEvent (deployment 3 (Some t2)) (deployment 4 None).

End Scenario.

(** ** A scripted runtime

    The answers of the cluster are fixed in advance and the world is the
    list of the calls made so far: a run shows which calls a function
    made, in which order, and a script can make any of them fail. *)
Module Scripted.

Inductive Call :=
  | GetDexServer (key : NamespacedName)
  | GetSecret (key : NamespacedName)
  | GetConfigMap (key : NamespacedName)
  | CreateSecret (secret : Secret)
  | UpdateSecret (secret : Secret)
  | StatusUpdate (m : DexServer)
  | Apply (values : Values) (files : list string)
  | GenerateMTLSCerts (namespace : string)
  | InCertRenewalWindow (expiry : Time)
  | Now.

Record Script := mkScript {
  dexServers : NamespacedName → Result DexServer;
  secrets : NamespacedName → Result Secret;
  configMaps : NamespacedName → Result ConfigMap;
  writes : Secret → option error;
  statusWrites : option error;
  applies : list string → option error;
  certs : Result MTLSCerts;
  inWindow : bool;
  now : Time
}.

Definition call {A : Type} (c : Call) (answer : A) : M (list Call) A :=
  λ w, (w ++ [c], answer).

Definition runtime (s : Script) : Runtime (list Call) := {|
  Get_DexServer := λ key, call (GetDexServer key) (dexServers s key);
  Get_Secret := λ key, call (GetSecret key) (secrets s key);
  Get_ConfigMap := λ key, call (GetConfigMap key) (configMaps s key);
  Create_Secret := λ secret, call (CreateSecret secret) (writes s secret);
  Update_Secret := λ secret, call (UpdateSecret secret) (writes s secret);
  Status_Update := λ m, call (StatusUpdate m) (statusWrites s);
  ApplyDirectly := λ _ values files, call (Apply values files) (applies s files);
  ApplyDeployments := λ _ values files, call (Apply values files) (applies s files);
  ApplyCustomResources := λ _ values files,
    call (Apply values files) (applies s files);
  generateMTLSCerts := λ namespace, call (GenerateMTLSCerts namespace) (certs s);
  inCertRenewalWindow := λ expiry, call (InCertRenewalWindow expiry) (inWindow s);
  time_Now := call Now (now s)
|}.

(** The calls a function makes against a script, and what it returns. *)
Definition run {A : Type} (s : Script) (f : Runtime (list Call) → M (list Call) A)
    : list Call * A :=
  f (runtime s) [].

End Scripted.

(** ** Scenarios with a directory

    An instance with an LDAP connector that names a root CA secret, a
    connector of a type the controller does not know, and scripts to run
    them against. *)
Module Cases.
Import Scenario.

Definition emptyGitHub : GitHubConfigSpec :=
  mkGitHub "" (mkSecretReference "" "") "" "" [].

Definition ldap : ConnectorSpec :=
  mkConnector ConnectorTypeLDAP "ldap" "LDAP" emptyGitHub emptyMicrosoft
    (mkLDAP "ldap.example.com:636" false false false
       (mkSecretReference "ldap-ca" "") "cn=admin,dc=example,dc=com"
       (mkSecretReference "ldap-bind" "") "" emptyUserSearch emptyGroupSearch).

Definition saml : ConnectorSpec :=
  mkConnector (ConnectorTypeOther "saml") "saml" "SAML" emptyGitHub
    emptyMicrosoft emptyLDAP.

(** GitHub and the directory. *)
Definition withLDAP : DexServer :=
  mkDexServer "dex" "idp"
    (mkDexServerSpec "https://dex.example.com" [github; ldap] "") [].

(** The same with a connector of an unknown type between the two. *)
Definition withSAML : DexServer :=
  mkDexServer "dex" "idp"
    (mkDexServerSpec "https://dex.example.com" [github; saml; ldap] "") [].

Definition bindSecret : Secret :=
  mkSecret (mkObjectMeta "ldap-bind" "idp" {[ IDP_CREDENTIAL_LABEL := "" ]} ∅ [] 1)
    {[ "bindPW" := "b1nd" ]}.

(** The root CA of the directory, without a client certificate. *)
Definition caSecret : Secret :=
  mkSecret (mkObjectMeta "ldap-ca" "idp" ∅ ∅ [] 1) {[ "ca.crt" := "ROOT;" ]}.

Definition chain : MTLSCerts :=
  mkMTLSCerts "CA;" "CAKEY;" "CERT;" "CERTKEY;" "CLIENT;" "CLIENTKEY;"
    (mkTime (noon + 365 * InMemory.day) 0).

Definition missing : error := mkError "not found" true.
Definition refused : error := mkError "connection refused" false.

(** The objects of a kind by name; any other name is not found. *)
Definition named {A : Type} (objects : list (string * A)) (key : NamespacedName)
    : Result A :=
  match (list_to_map objects : gmap string A) !! nnName key with
  | Some o => inl o
  | None => inr missing
  end.

(** A script in which every write and every apply goes through. *)
Definition script (secrets : NamespacedName → Result Secret)
    (configMaps : NamespacedName → Result ConfigMap) (certs : Result MTLSCerts)
    : Scripted.Script :=
  Scripted.mkScript (named [("dex", withLDAP)]) secrets configMaps (λ _, None)
    None (λ _, None) certs false (mkTime noon 0).

(** The three secrets of the instance are there, the bundle is not. *)
Definition credentials : NamespacedName → Result Secret :=
  named [("github-oauth", oauthSecret); ("ldap-bind", bindSecret);
         ("ldap-ca", caSecret)].

(** The library with the image variable set and a marshaller of volumes
    and mounts that fails. *)
Definition brokenYaml : GoLib := {|
  os_Getenv := @os_Getenv lib;
  time_Parse_RFC3339 := @time_Parse_RFC3339 lib;
  yaml_Marshal_VolumeMounts := λ _, inr (Errorf "yaml: unsupported type");
  yaml_Marshal_Volumes := λ _, inr (Errorf "yaml: unsupported type");
  yaml_Marshal_Connectors := @yaml_Marshal_Connectors lib;
  json_Marshal_ConfigMap := @json_Marshal_ConfigMap lib;
  url_Parse_Host := @url_Parse_Host lib
|}.

(** A deployment of another namespace, owned by a DexServer. *)
Definition elsewhere (generation : Z) : Deployment :=
  mkDeployment
    (mkObjectMeta "dex" "staging" ∅ ∅ [mkOwnerReference "DexServer" "dex" true]
       generation)
    ∅.

End Cases.

(** * Properties *)

(** ** The library functions on known values *)

Example format_epoch : time.Format_RFC3339 (mkTime 0 0) = "1970-01-01T00:00:00Z".
Proof. reflexivity. Qed.
Example format_zero : time.Format_RFC3339 zeroTime = "0001-01-01T00:00:00Z".
Proof. vm_compute. reflexivity. Qed.
Example format_2021 :
  time.Format_RFC3339 (mkTime 1636462800123456789 0) = "2021-11-09T13:00:00Z".
Proof. vm_compute. reflexivity. Qed.
Example format_zone :
  time.Format_RFC3339 (mkTime 1636462800123456789 (-18000)) = "2021-11-09T08:00:00-05:00".
Proof. vm_compute. reflexivity. Qed.
Example format_leap :
  time.Format_RFC3339 (mkTime 1709251199000000000 19800) = "2024-03-01T05:29:59+05:30".
Proof. vm_compute. reflexivity. Qed.

Example sha256_abc :
  SHA256.hex (SHA256.Sum "abc") =
  "ba7816bf8f01cfea414140de5dae2223b00361a396177a9cb410ff61f20015ad".
Proof. vm_compute. reflexivity. Qed.

Example sha256_empty :
  SHA256.hex (SHA256.Sum "") =
  "e3b0c44298fc1c149afbf4c8996fb92427ae41e4649b934ca495991b7852b855".
Proof. vm_compute. reflexivity. Qed.

Example sha256_two_blocks :
  SHA256.hex (SHA256.Sum "aaaaaaaaaaaaaaaaaaaaaaaaaaaaaaaaaaaaaaaaaaaaaaaaaaaaaaaaaaaaaaaaaaaaaaaaaaaaaaaaaaaaaaaaaaaaaaaaaaaa") =
  "2816597888e4a0d3a36b82b83316ab32680eb8f00f8cd3b904d681246d285a0e".
Proof. vm_compute. reflexivity. Qed.

Example sha256_constants :
  length SHA256.primes = 64%nat
  ∧ SHA256.K !! 0%nat = Some 0x428a2f98 ∧ SHA256.K !! 63%nat = Some 0xc67178f2
  ∧ SHA256.init !! 0%nat = Some 0x6a09e667 ∧ SHA256.init !! 7%nat = Some 0x5be0cd19.
Proof. vm_compute. done. Qed.

(** ** The credential bundle secret *)

Lemma append_cons (x : ascii) (a b : string) :
  String x a +:+ b = String x (a +:+ b).
Proof. reflexivity. Qed.

Lemma length_append (a b : string) :
  String.length (a +:+ b) = (String.length a + String.length b)%nat.
Proof.
  induction a as [|c a IH]; [reflexivity|].
  rewrite append_cons. simpl. by rewrite IH.
Qed.

Lemma append_assoc (a b c : string) : (a +:+ b) +:+ c = a +:+ (b +:+ c).
Proof.
  induction a as [|x a IH]; [reflexivity|].
  rewrite !append_cons. by rewrite IH.
Qed.

Lemma digits_length (width : nat) (x : Z) :
  String.length (time.digits width x) = width.
Proof. induction width as [|w IH]; simpl; [reflexivity | by rewrite IH]. Qed.

(** A time presented in UTC prints as nineteen characters of date and
    time followed by [Z], whatever zone it came in. *)
Lemma Format_RFC3339_UTC (t : Time) :
  ∃ s, time.Format_RFC3339 (UTC t) = s +:+ "Z" ∧ String.length s = 19%nat.
Proof.
  unfold time.Format_RFC3339, UTC. cbn [UnixNano zoneOffset].
  destruct (time.civil_from_days _) as [[y m] d].
  change (time.zone 0) with "Z".
  set (rem := (_ + 0) mod 86400).
  exists (time.digits 4 y +:+ "-" +:+ time.digits 2 m +:+ "-" +:+ time.digits 2 d
            +:+ "T" +:+ time.digits 2 (rem / 3600) +:+ ":"
            +:+ time.digits 2 (rem mod 3600 / 60) +:+ ":"
            +:+ time.digits 2 (rem mod 60)).
  split.
  - by rewrite !append_assoc.
  - rewrite !length_append, !digits_length. reflexivity.
Qed.


(** ** Steps of the pass, over any cluster *)

Section Properties.
Context `{GoLib} {W : Type} `{Runtime W}.

(** C3. [manageMTLSSecret] by cases on the lookup of the bundle in the
    namespace of the instance.  Not found: a fresh chain is generated and
    the bundle is created.  Found with the expiry annotation missing or
    empty, or not parsing as a timestamp: a fresh chain is generated and
    the bundle is updated in place, whatever the renewal window check
    answers.  Found, the annotation parses and the check says the time is
    inside the window: regenerated and updated in place.  Otherwise the
    function returns nil having run only the lookup and the window check:
    no chain is generated and nothing is created or updated.  Nor is
    anything written when the lookup fails otherwise than by not-found:
    that error is returned, wrapped. *)
Theorem manageMTLSSecret_ensure (dexServer : DexServer) (w : W) :
  (∀ w1 err,
     getMTLSSecret dexServer w = (w1, inr err) → IsNotFound err = true →
     manageMTLSSecret dexServer w
     = regenerate_spec Create_Secret "error creating mtls secret" dexServer w1)
  ∧ (∀ w1 secret,
     getMTLSSecret dexServer w = (w1, inl secret) →
     index (Annotations (secMeta secret)) MTLS_CERT_EXPIRY_ANNOTATION = "" →
     manageMTLSSecret dexServer w
     = regenerate_spec Update_Secret "error updating mtls secret" dexServer w1)
  ∧ (∀ w1 secret e,
     getMTLSSecret dexServer w = (w1, inl secret) →
     index (Annotations (secMeta secret)) MTLS_CERT_EXPIRY_ANNOTATION ≠ "" →
     time_Parse_RFC3339
       (index (Annotations (secMeta secret)) MTLS_CERT_EXPIRY_ANNOTATION) = inr e →
     manageMTLSSecret dexServer w
     = regenerate_spec Update_Secret "error updating mtls secret" dexServer
         (inCertRenewalWindow zeroTime w1).1)
  ∧ (∀ w1 secret t w2,
     getMTLSSecret dexServer w = (w1, inl secret) →
     index (Annotations (secMeta secret)) MTLS_CERT_EXPIRY_ANNOTATION ≠ "" →
     time_Parse_RFC3339
       (index (Annotations (secMeta secret)) MTLS_CERT_EXPIRY_ANNOTATION) = inl t →
     inCertRenewalWindow t w1 = (w2, true) →
     manageMTLSSecret dexServer w
     = regenerate_spec Update_Secret "error updating mtls secret" dexServer w2)
  ∧ (∀ w1 secret t w2,
     getMTLSSecret dexServer w = (w1, inl secret) →
     index (Annotations (secMeta secret)) MTLS_CERT_EXPIRY_ANNOTATION ≠ "" →
     time_Parse_RFC3339
       (index (Annotations (secMeta secret)) MTLS_CERT_EXPIRY_ANNOTATION) = inl t →
     inCertRenewalWindow t w1 = (w2, false) →
     manageMTLSSecret dexServer w = (w2, None))
  ∧ (∀ w1 err,
     getMTLSSecret dexServer w = (w1, inr err) → IsNotFound err = false →
     manageMTLSSecret dexServer w
     = (w1, Some (Wrap err "error getting mtls secret"))).
Proof.
  assert (Hregen : ∀ write text w',
    regenerate_spec write text dexServer w'
    = (let '(w2, r) := generateMTLSCerts (dsNamespace dexServer) w' in
       match r with
       | inr err => (w2, Some (Wrap err "error generating mtls certs"))
       | inl certs =>
           let '(w3, err) := write (defineMTLSSecret dexServer certs) w2 in
           (w3, (λ e, Wrap e text) <$> err)
       end)).
  { intros. unfold regenerate_spec. unfold_M.
    destruct (generateMTLSCerts _ _) as [w2 [certs|err]]; reflexivity. }
  split_and!.
  - intros w1 err Hget Hnf. unfold manageMTLSSecret. unfold_M.
    rewrite Hget, Hnf, Hregen. cbn.
    destruct (generateMTLSCerts _ _) as [w2 [certs|e]]; [|reflexivity].
    destruct (Create_Secret _ _) as [w3 [e|]]; reflexivity.
  - intros w1 secret Hget Hann. unfold manageMTLSSecret. unfold_M.
    rewrite Hget, Hregen. cbn zeta. rewrite decide_True by exact Hann. cbn.
    destruct (generateMTLSCerts _ _) as [w2 [certs|e]]; [|reflexivity].
    destruct (Update_Secret _ _) as [w3 [e|]]; reflexivity.
  - intros w1 secret e Hget Hann Hparse. unfold manageMTLSSecret. unfold_M.
    rewrite Hget, Hregen. cbn zeta. rewrite decide_False by exact Hann.
    rewrite Hparse.
    destruct (inCertRenewalWindow zeroTime w1) as [w2 inw]. cbn.
    replace (if inw then true else true) with true by (by destruct inw).
    destruct (generateMTLSCerts _ _) as [w3 [certs|e']]; [|reflexivity].
    destruct (Update_Secret _ _) as [w4 [e'|]]; reflexivity.
  - intros w1 secret t w2 Hget Hann Hparse Hwin. unfold manageMTLSSecret. unfold_M.
    rewrite Hget, Hregen. cbn zeta. rewrite decide_False by exact Hann.
    rewrite Hparse, Hwin. cbn.
    destruct (generateMTLSCerts _ _) as [w3 [certs|e']]; [|reflexivity].
    destruct (Update_Secret _ _) as [w4 [e'|]]; reflexivity.
  - intros w1 secret t w2 Hget Hann Hparse Hwin. unfold manageMTLSSecret. unfold_M.
    rewrite Hget. cbn zeta. rewrite decide_False by exact Hann.
    rewrite Hparse, Hwin. reflexivity.
  - intros w1 err Hget Hnf. unfold manageMTLSSecret. unfold_M.
    by rewrite Hget, Hnf.
Qed.

(** The credential lookup of the three known arms, in one equation. *)
Lemma getConnectorSecretFromRef_known (connector : ConnectorSpec) (m : DexServer)
    (ref : SecretReference) (key : string) :
  credentialRef connector = Some (ref, key) →
  getConnectorSecretFromRef connector m = secretFromRef ref key m.
Proof.
  unfold credentialRef, getConnectorSecretFromRef.
  destruct (connType connector); intros [= <- <-]; reflexivity.
Qed.

(** The empty secret carries no label, so the label is set and the update
    attempted. *)
Lemma checkAndAddLabelToSecret_empty (w : W) :
  checkAndAddLabelToSecret emptySecret w
  = ((Update_Secret (set_Label emptySecret IDP_CREDENTIAL_LABEL "") w).1,
     set_Label emptySecret IDP_CREDENTIAL_LABEL "").
Proof.
  unfold checkAndAddLabelToSecret. cbn [emptySecret emptyMeta secMeta Labels].
  rewrite lookup_empty. unfold_M.
  by destruct (Update_Secret _ w).
Qed.

Lemma checkAndAddLabelToSecret_data (secret : Secret) (w : W) :
  secData (checkAndAddLabelToSecret secret w).2 = secData secret.
Proof.
  unfold checkAndAddLabelToSecret.
  destruct (Labels (secMeta secret) !! IDP_CREDENTIAL_LABEL); [reflexivity|].
  unfold_M. by destruct (Update_Secret _ w).
Qed.

Lemma getConnectorSecretFromRef_not_found (connector : ConnectorSpec)
    (m : DexServer) (ref : SecretReference) (key : string) (w w1 : W) (err : error) :
  credentialRef connector = Some (ref, key) →
  Get_Secret (credentialKey ref m) w = (w1, inr err) → IsNotFound err = true →
  getConnectorSecretFromRef connector m w = (w1, ("", Some err)).
Proof.
  intros Href Hget He. rewrite (getConnectorSecretFromRef_known _ _ _ _ Href).
  unfold secretFromRef, Get_Secret_into. unfold_M.
  fold (credentialKey ref m). rewrite Hget. cbn. by rewrite He.
Qed.

Lemma getConnectorSecretFromRef_other_error (connector : ConnectorSpec)
    (m : DexServer) (ref : SecretReference) (key : string) (w w1 : W) (err : error) :
  credentialRef connector = Some (ref, key) →
  Get_Secret (credentialKey ref m) w = (w1, inr err) → IsNotFound err = false →
  getConnectorSecretFromRef connector m w
  = ((Update_Secret (set_Label emptySecret IDP_CREDENTIAL_LABEL "") w1).1,
     ("", None)).
Proof.
  intros Href Hget He. rewrite (getConnectorSecretFromRef_known _ _ _ _ Href).
  unfold secretFromRef, Get_Secret_into. unfold_M.
  fold (credentialKey ref m). rewrite Hget. cbn. rewrite He.
  rewrite checkAndAddLabelToSecret_empty. reflexivity.
Qed.

Lemma getConnectorSecretFromRef_found (connector : ConnectorSpec)
    (m : DexServer) (ref : SecretReference) (key : string) (w w1 : W)
    (secret : Secret) :
  credentialRef connector = Some (ref, key) →
  Get_Secret (credentialKey ref m) w = (w1, inl secret) →
  (getConnectorSecretFromRef connector m w).2 = (index (secData secret) key, None).
Proof.
  intros Href Hget. rewrite (getConnectorSecretFromRef_known _ _ _ _ Href).
  unfold secretFromRef, Get_Secret_into. unfold_M.
  fold (credentialKey ref m). rewrite Hget. cbn.
  pose proof (checkAndAddLabelToSecret_data secret w1) as Hdata.
  destruct (checkAndAddLabelToSecret secret w1) as [w2 secret']. cbn in *.
  by rewrite Hdata.
Qed.

(** A connector of a known type whose secret is not found ends
    [syncConfigMap] with a nil error: nothing is marshalled or applied,
    and the connectors after it are not looked at. *)
Lemma syncConfigMap_not_found (connector : ConnectorSpec) (others : list ConnectorSpec)
    (m : DexServer) (ref : SecretReference) (key : string) (w w1 : W) (err : error) :
  Connectors (Spec m) = connector :: others →
  credentialRef connector = Some (ref, key) →
  Get_Secret (credentialKey ref m) w = (w1, inr err) → IsNotFound err = true →
  syncConfigMap m w = (w1, None).
Proof.
  intros Hconn Href Hget He.
  pose proof (getConnectorSecretFromRef_not_found _ _ _ _ _ _ _ Href Hget He) as Hnf.
  unfold syncConfigMap. rewrite Hconn. cbn [syncConfigMap_range].
  unfold credentialRef in Href.
  destruct (connType connector); try discriminate; unfold_M; by rewrite Hnf.
Qed.

(** C9. For a connector of a known type, by cases on the lookup of the
    referenced secret.  A not-found error is returned with an empty
    credential.  Any other error is dropped: the label update is tried on
    the empty secret and the function returns the empty string with a nil
    error.  A secret that is found yields its data under the key of the
    connector type.  So a non-nil error is always a not-found error.  And
    when such a connector is the only one of an instance (an LDAP one
    without a root CA reference) and its lookup fails otherwise than by
    not-found, [syncConfigMap] marshals a connector whose client secret
    and bind password are empty and applies the configuration rendered
    from it. *)
Theorem getConnectorSecretFromRef_lookup_errors (connector : ConnectorSpec)
    (m : DexServer) (ref : SecretReference) (key : string) (w : W) :
  credentialRef connector = Some (ref, key) →
  (∀ w1 err,
     Get_Secret (credentialKey ref m) w = (w1, inr err) → IsNotFound err = true →
     getConnectorSecretFromRef connector m w = (w1, ("", Some err)))
  ∧ (∀ w1 err,
     Get_Secret (credentialKey ref m) w = (w1, inr err) → IsNotFound err = false →
     getConnectorSecretFromRef connector m w
     = ((Update_Secret (set_Label emptySecret IDP_CREDENTIAL_LABEL "") w1).1,
        ("", None)))
  ∧ (∀ w1 secret,
     Get_Secret (credentialKey ref m) w = (w1, inl secret) →
     (getConnectorSecretFromRef connector m w).2 = (index (secData secret) key, None))
  ∧ (∀ err,
     (getConnectorSecretFromRef connector m w).2.2 = Some err → IsNotFound err = true)
  ∧ (∀ w1 err,
     Get_Secret (credentialKey ref m) w = (w1, inr err) → IsNotFound err = false →
     Connectors (Spec m) = [connector] →
     (connType connector = ConnectorTypeLDAP →
      refName (ldapRootCARef (connLDAP connector)) = "") →
     ∃ rendered : DexConnectorSpec,
       cfgClientSecret (dcConfig rendered) = ""
       ∧ cfgBindPW (dcConfig rendered) = ""
       ∧ dcId rendered = connId connector
       ∧ syncConfigMap m w
         = match yaml_Marshal_Connectors [rendered] with
           | inr e => mret (Some e)
           | inl connectorYaml =>
               ApplyDirectly m (ConfigMapValues (Issuer (Spec m)) connectorYaml m)
                 ["dex-server/config_map.yaml"]
           end (Update_Secret (set_Label emptySecret IDP_CREDENTIAL_LABEL "") w1).1).
Proof.
  intros Href.
  pose proof (getConnectorSecretFromRef_not_found connector m ref key w) as Hnf.
  pose proof (getConnectorSecretFromRef_other_error connector m ref key w) as Hother.
  pose proof (getConnectorSecretFromRef_found connector m ref key w) as Hfound.
  split_and!; [by eauto | by eauto | by eauto | |].
  - intros err Herr.
    destruct (Get_Secret (credentialKey ref m) w) as [w1 [secret|e]] eqn:Hget.
    + rewrite (Hfound _ _ Href eq_refl) in Herr. discriminate.
    + destruct (IsNotFound e) eqn:He.
      * rewrite (Hnf _ _ Href eq_refl He) in Herr. cbn in Herr. congruence.
      * rewrite (Hother _ _ Href eq_refl He) in Herr. discriminate.
  - intros w1 err Hget Hnotnf Hconn Hroot.
    specialize (Hother _ _ Href Hget Hnotnf).
    unfold syncConfigMap. rewrite Hconn. cbn [syncConfigMap_range].
    unfold credentialRef in Href.
    destruct (connType connector) eqn:Htype; try discriminate;
      injection Href as <- <-; unfold_M; rewrite Hother; cbn.
    + eexists. split_and!; [| | |reflexivity]; reflexivity.
    + eexists. split_and!; [| | |reflexivity]; reflexivity.
    + unfold ldapCertPaths. rewrite (Hroot eq_refl). cbn.
      eexists. split_and!; [| | |reflexivity]; reflexivity.
Qed.

End Properties.

(** ** The drift fingerprint *)

Lemma unhex_hex_byte (c : ascii) :
  unhex_byte (SHA256.hexdigit (SHA256.byte_of_ascii c / 16))
             (SHA256.hexdigit (SHA256.byte_of_ascii c mod 16)) = c.
Proof. destruct c as [[] [] [] [] [] [] [] []]; vm_compute; reflexivity. Qed.

(** The hexadecimal text loses nothing. *)
Lemma unhex_hex (l : list ascii) : unhex (SHA256.hex l) = l.
Proof.
  induction l as [|c l IH]; [reflexivity|].
  cbn [SHA256.hex unhex]. by rewrite unhex_hex_byte, IH.
Qed.

Lemma hex_length (l : list ascii) :
  String.length (SHA256.hex l) = (2 * length l)%nat.
Proof. induction l as [|c l IH]; cbn [SHA256.hex String.length length]; lia. Qed.

Lemma Sum_length (data : string) : length (SHA256.Sum data) = 32%nat.
Proof.
  unfold SHA256.Sum. rewrite length_fmap.
  destruct (foldl SHA256.compress _ _) as [[[[[[[a b] c] d] e] f] g] h].
  reflexivity.
Qed.

Lemma bits_of_bytes_length (l : list ascii) :
  length (bits_of_bytes l) = (8 * length l)%nat.
Proof.
  induction l as [|c l IH]; [reflexivity|].
  unfold bits_of_bytes in *. cbn [mbind list_bind]. rewrite length_app, IH.
  destruct c. cbn [bits_of_ascii length]. lia.
Qed.

Lemma bits_of_bytes_inj (l1 l2 : list ascii) :
  bits_of_bytes l1 = bits_of_bytes l2 → l1 = l2.
Proof.
  revert l2. induction l1 as [|c1 l1 IH]; intros [|c2 l2] Heq.
  - reflexivity.
  - destruct c2. discriminate.
  - destruct c1. discriminate.
  - unfold bits_of_bytes in *. cbn [mbind list_bind] in Heq.
    destruct c1, c2. cbn [bits_of_ascii app] in Heq.
    injection Heq as -> -> -> -> -> -> -> -> Heq. f_equal. by apply IH.
Qed.

Lemma text_of_bits_inj (l1 l2 : list bool) :
  text_of_bits l1 = text_of_bits l2 → l1 = l2.
Proof.
  revert l2. induction l1 as [|b1 l1 IH]; intros [|b2 l2] Heq; try discriminate.
  - reflexivity.
  - cbn [text_of_bits] in Heq. injection Heq as Hb Heq.
    f_equal; [by destruct b1, b2 | by apply IH].
Qed.

(** A digest has 256 bits and there are more texts than that: two
    different texts have the same sum. *)
Lemma Sum_collision : ∃ a b : string, a ≠ b ∧ SHA256.Sum a = SHA256.Sum b.
Proof.
  pose (g := λ x : { l : list bool | length l = 257%nat },
          (bits_of_bytes (SHA256.Sum (text_of_bits (`x)))
             ↾ eq_trans (bits_of_bytes_length _)
                 (f_equal (Nat.mul 8) (Sum_length _))
           : { l : list bool | length l = (8 * 32)%nat })).
  destruct (finite_pigeonhole g) as (x1 & x2 & Hne & Heq).
  { rewrite !list_card, bool_card.
    apply Nat.pow_lt_mono_r; [lia|]. apply Nat.lt_succ_diag_r. }
  exists (text_of_bits (`x1)), (text_of_bits (`x2)). split.
  - intros Htext. apply Hne, sig_eq_pi; [apply _|]. by apply text_of_bits_inj.
  - apply bits_of_bytes_inj. exact (f_equal proj1_sig Heq).
Qed.

Lemma configHash_length (jsonData : string) :
  String.length (configHash jsonData) = 64%nat.
Proof. unfold configHash. by rewrite hex_length, Sum_length. Qed.

Lemma configHash_nonempty (jsonData : string) : configHash jsonData ≠ "".
Proof.
  intros Hempty. pose proof (configHash_length jsonData) as Hlen.
  rewrite Hempty in Hlen. discriminate.
Qed.

Section Deployment.
Context `{GoLib} {W : Type} `{Runtime W}.


End Deployment.

(** ** The convergence pass *)

Section Pass.
Context `{GoLib} {W : Type} `{Runtime W}.

(** [Reconcile], once the instance is fetched, is the loop over the step
    table. *)
Lemma Reconcile_run_pass (req : NamespacedName) (w : W) :
  Reconcile req w
  = let '(w1, r) := Get_DexServer req w in
    match r with
    | inr err => (w1, (noRequeue, IgnoreNotFound err))
    | inl dexServer => run_pass_spec dexServer w1
    end.
Proof.
  unfold Reconcile, run_pass_spec, failed.
  unfold DexServerConditionTypeApplied, ConditionFalse, ConditionTrue.
  cbv [run_steps_spec pass_steps_spec stepAction stepReason stepMessage
       failure_condition_spec applied_condition_spec mbind M_bind mret M_ret].
  destruct (Get_DexServer req w) as [w1 [dexServer|err]]; [|reflexivity].
  repeat match goal with
  | |- context [match ?step dexServer ?w' with _ => _ end] =>
      destruct (step dexServer w') as [? [?|]]
  end;
  repeat match goal with
  | |- context [updateDexServerStatusConditions ?d ?c ?w'] =>
      destruct (updateDexServerStatusConditions d c w') as [? [? [?|]]]
  end; reflexivity.
Qed.

(** The steps of a prefix succeed, the next one fails: the loop stops
    there. *)
Lemma run_steps_spec_stops (done rest : list Step) (s : Step)
    (dexServer : DexServer) (w1 w2 w3 : W) (err : error) :
  run_steps_spec done dexServer w1 = (w2, None) →
  stepAction s dexServer w2 = (w3, Some err) →
  run_steps_spec (done ++ s :: rest) dexServer w1 = (w3, Some (s, err)).
Proof.
  revert w1. induction done as [|s0 done IH]; intros w1 Hdone Hfail.
  - cbn in Hdone. injection Hdone as ->.
    cbn [app run_steps_spec]. unfold_M. by rewrite Hfail.
  - cbn [app run_steps_spec] in *. unfold_M.
    destruct (stepAction s0 dexServer w1) as [w1' [e|]]; [discriminate|].
    by apply IH.
Qed.



(** C7. When every one of the eight steps returns nil, the pass merges
    into the conditions of the instance the single condition of type
    Applied, status True, reason Applied, and writes the status.  If the
    write succeeds the pass returns no error and asks to be queued again
    after one hour; if the write fails the pass returns the error of the
    write and asks for no delay. *)
Theorem Reconcile_all_steps_succeed (req : NamespacedName) (dexServer : DexServer)
    (w0 w1 w2 : W) :
  Get_DexServer req w0 = (w1, inl dexServer) →
  run_steps_spec pass_steps_spec dexServer w1 = (w2, None) →
  Reconcile req w0
  = let '(w3, (_, uerr)) :=
      updateDexServerStatusConditions dexServer
        [mkCondition "Applied" "True" zeroTime "Applied" "DexServer is applied"]
        w2 in
    (w3, match uerr with
         | Some uerr => (noRequeue, Some uerr)
         | None => (mkCtrlResult true (1 * Hour), None)
         end).
Proof.
  intros Hget Hrun.
  rewrite Reconcile_run_pass, Hget. unfold run_pass_spec. unfold_M.
  rewrite Hrun. unfold applied_condition_spec.
  by destruct (updateDexServerStatusConditions _ _ w2) as [w3 [d [uerr|]]].
Qed.

End Pass.

(** ** The status merge *)

Section Merge.
Context {W : Type} `{Runtime W}.

Lemma FindStatusCondition_None (conditions : list Condition) (t : string) :
  FindStatusCondition conditions t = None ↔ t ∉ Type_ <$> conditions.
Proof.
  induction conditions as [|c l IH]; cbn [FindStatusCondition fmap list_fmap].
  - split; [intros _; apply not_elem_of_nil | done].
  - rewrite not_elem_of_cons. case_decide as Hc.
    + split; [done | intros [? _]; congruence].
    + destruct (FindStatusCondition l t) eqn:Hfind; cbn.
      * split; [done|]. intros [_ Hl]. by apply IH in Hl.
      * split; [|done]. intros _. split; [congruence | by apply IH].
Qed.

(** The position found is that of the first record of the type. *)
Lemma FindStatusCondition_Some (conditions : list Condition) (t : string) (i : nat) :
  FindStatusCondition conditions t = Some i ↔
  (∃ c, conditions !! i = Some c ∧ Type_ c = t)
  ∧ ∀ j c, (j < i)%nat → conditions !! j = Some c → Type_ c ≠ t.
Proof.
  revert i. induction conditions as [|c l IH]; intros i;
    cbn [FindStatusCondition].
  - split; [done | by intros [(c & Hc & _) _]].
  - case_decide as Hc.
    + split.
      * intros [= <-]. split; [by exists c | intros j c' Hj; lia].
      * intros [_ Hfirst]. destruct i as [|i]; [done|].
        exfalso. by apply (Hfirst O c); [lia | | ].
    + destruct i as [|i].
      * split; [by destruct (FindStatusCondition l t) | ].
        intros [(c' & [= <-] & Ht) _]. done.
      * assert (S <$> FindStatusCondition l t = Some (S i)
                ↔ FindStatusCondition l t = Some i) as ->.
        { destruct (FindStatusCondition l t); cbn; split; congruence. }
        rewrite IH. cbn [lookup list_lookup].
        split; intros [Hex Hfirst]; (split; [exact Hex|]).
        -- intros [|j] c' Hj Hl; [by injection Hl as <- | ].
           apply (Hfirst j); [lia | exact Hl].
        -- intros j c' Hj Hl. apply (Hfirst (S j)); [lia | exact Hl].
Qed.

Lemma SetStatusCondition_absent (conditions : list Condition) (u : Condition) (w : W) :
  Type_ u ∉ Type_ <$> conditions →
  (SetStatusCondition conditions u w).2
  = conditions ++ [stamped (time_Now w).2 u].
Proof.
  intros Habs%FindStatusCondition_None.
  unfold SetStatusCondition, stamped. rewrite Habs.
  destruct (IsZero _); [|reflexivity]. unfold_M.
  by destruct (time_Now w).
Qed.

Lemma SetStatusCondition_present (conditions : list Condition) (u e : Condition)
    (i : nat) (w : W) :
  FindStatusCondition conditions (Type_ u) = Some i →
  conditions !! i = Some e →
  (SetStatusCondition conditions u w).2
  = <[i := overwritten (time_Now w).2 e u]> conditions.
Proof.
  intros Hfind Hi. unfold SetStatusCondition, overwritten, stamped.
  rewrite Hfind, Hi. cbn [default].
  destruct (decide (Status e = Status u)) as [Heq|Hne].
  - rewrite decide_False by (intros Hn; by apply Hn). cbn. by rewrite Heq.
  - rewrite decide_True by exact Hne.
    destruct (IsZero _); cbn [negb]; [|reflexivity]. unfold_M.
    by destruct (time_Now w).
Qed.

(** One update leaves the types as they are when its type is present and
    adds its type at the end when it is not. *)
Lemma SetStatusCondition_types (conditions : list Condition) (u : Condition) (w : W) :
  Type_ <$> (SetStatusCondition conditions u w).2
  = if decide (Type_ u ∈ Type_ <$> conditions) then Type_ <$> conditions
    else (Type_ <$> conditions) ++ [Type_ u].
Proof.
  case_decide as Hin.
  - destruct (FindStatusCondition conditions (Type_ u)) as [i|] eqn:Hfind;
      [|by apply FindStatusCondition_None in Hfind].
    pose proof Hfind as Hsome. apply FindStatusCondition_Some in Hsome as [(e & Hi & Ht) _].
    rewrite (SetStatusCondition_present _ _ e i) by done.
    rewrite list_fmap_insert. apply list_insert_id.
    rewrite list_lookup_fmap, Hi. reflexivity.
  - rewrite SetStatusCondition_absent by done.
    rewrite fmap_app. f_equal. unfold stamped.
    by destruct (IsZero _).
Qed.

Lemma SetStatusCondition_other (conditions : list Condition) (u c : Condition)
    (i : nat) (w : W) :
  conditions !! i = Some c → Type_ c ≠ Type_ u →
  (SetStatusCondition conditions u w).2 !! i = Some c.
Proof.
  intros Hi Hne.
  destruct (FindStatusCondition conditions (Type_ u)) as [j|] eqn:Hfind.
  - pose proof Hfind as Hsome.
    apply FindStatusCondition_Some in Hsome as [(e & Hj & Ht) _].
    rewrite (SetStatusCondition_present _ _ e j) by done.
    rewrite list_lookup_insert_ne; [exact Hi | congruence].
  - rewrite SetStatusCondition_absent by by apply FindStatusCondition_None.
    by apply lookup_app_l_Some.
Qed.

Lemma mergeEach_cons (merged : list Condition) (u : Condition)
    (rest : list Condition) (w : W) :
  mergeEach merged (u :: rest) w
  = let '(w1, merged') := SetStatusCondition merged u w in mergeEach merged' rest w1.
Proof. reflexivity. Qed.

Lemma mergeEach_types_prefix (news merged : list Condition) (w : W) :
  (Type_ <$> merged) `prefix_of` (Type_ <$> (mergeEach merged news w).2).
Proof.
  revert merged w. induction news as [|u rest IH]; intros merged w; [done|].
  rewrite mergeEach_cons.
  pose proof (SetStatusCondition_types merged u w) as Hty.
  destruct (SetStatusCondition merged u w) as [w1 merged']. cbn [snd] in Hty.
  etrans; [|apply IH]. rewrite Hty. case_decide; [done | by apply prefix_app_r].
Qed.

Lemma mergeEach_other (news merged : list Condition) (c : Condition) (i : nat)
    (w : W) :
  merged !! i = Some c → Type_ c ∉ Type_ <$> news →
  (mergeEach merged news w).2 !! i = Some c.
Proof.
  revert merged w. induction news as [|u rest IH]; intros merged w Hi Hnot; [done|].
  rewrite mergeEach_cons. cbn [fmap list_fmap] in Hnot.
  apply not_elem_of_cons in Hnot as [Hne Hrest].
  pose proof (SetStatusCondition_other merged u c i w Hi Hne) as Hstep.
  destruct (SetStatusCondition merged u w) as [w1 merged']. by apply IH.
Qed.

Lemma mergeEach_types (news merged : list Condition) (w : W) (t : string) :
  t ∈ Type_ <$> (mergeEach merged news w).2
  ↔ t ∈ Type_ <$> merged ∨ t ∈ Type_ <$> news.
Proof.
  revert merged w. induction news as [|u rest IH]; intros merged w.
  - cbn. rewrite elem_of_nil. tauto.
  - rewrite mergeEach_cons.
    pose proof (SetStatusCondition_types merged u w) as Hty.
    destruct (SetStatusCondition merged u w) as [w1 merged']. cbn [snd] in Hty.
    rewrite IH, Hty. cbn [fmap list_fmap]. rewrite elem_of_cons.
    case_decide as Hin.
    + split; [tauto|]. intros [?|[->|?]]; tauto.
    + rewrite elem_of_app, list_elem_of_singleton. tauto.
Qed.

Lemma mergeEach_NoDup (news merged : list Condition) (w : W) :
  NoDup (Type_ <$> merged) → NoDup (Type_ <$> (mergeEach merged news w).2).
Proof.
  revert merged w. induction news as [|u rest IH]; intros merged w Hnd; [done|].
  rewrite mergeEach_cons.
  pose proof (SetStatusCondition_types merged u w) as Hty.
  destruct (SetStatusCondition merged u w) as [w1 merged']. cbn [snd] in Hty.
  apply IH. rewrite Hty. case_decide as Hin; [done|].
  apply NoDup_app. split_and!; [done | | apply NoDup_singleton].
  intros t Ht ->%list_elem_of_singleton. done.
Qed.

Lemma mergeStatusConditions_one (conditions : list Condition) (u : Condition) (w : W) :
  mergeStatusConditions conditions [u] w = SetStatusCondition conditions u w.
Proof.
  unfold mergeStatusConditions. cbn [app]. rewrite mergeEach_cons.
  by destruct (SetStatusCondition conditions u w).
Qed.

(** C4. [mergeStatusConditions] handles the updates one after the other.
    An update whose type is present lands on the first record of that
    type, in its place: the record takes the reason and the message of
    the update; its status and its last-transition time change only when
    the status differs (to the time the update carries, or to the current
    time when it carries none); with the same status, reason and message
    it is left as it was.  An update
    whose type is absent is appended, stamped with the current time when
    it carries none.  Existing records keep their position and their type,
    and one whose type is in no update is unchanged.  The types of the
    result are those of the existing records and of the updates, and when
    the existing records have one record per type, so has the result.
    In particular an existing record of type A merged with an update of
    type A gives the single record of type A with the status and reason of
    the update, and merged with an update of another type B gives the two
    records, A then B. *)
Theorem mergeStatusConditions_by_type (conditions newConditions : list Condition)
    (w : W) :
  let merged := (mergeStatusConditions conditions newConditions w).2 in
  (∀ u rest, newConditions = u :: rest →
     mergeStatusConditions conditions newConditions w
     = let '(w1, merged1) := mergeStatusConditions conditions [u] w in
       mergeStatusConditions merged1 rest w1)
  ∧ (∀ u i e, newConditions = [u] →
       FindStatusCondition conditions (Type_ u) = Some i →
       conditions !! i = Some e →
       merged = <[i := overwritten (time_Now w).2 e u]> conditions)
  ∧ (∀ u i e, newConditions = [u] →
       FindStatusCondition conditions (Type_ u) = Some i →
       conditions !! i = Some e →
       Status u = Status e → Reason u = Reason e → Message u = Message e →
       merged = conditions)
  ∧ (∀ u, newConditions = [u] → Type_ u ∉ Type_ <$> conditions →
       merged = conditions ++ [stamped (time_Now w).2 u])
  ∧ (Type_ <$> conditions) `prefix_of` (Type_ <$> merged)
  ∧ (∀ i c, conditions !! i = Some c → Type_ c ∉ Type_ <$> newConditions →
       merged !! i = Some c)
  ∧ (∀ t, t ∈ Type_ <$> merged
          ↔ t ∈ Type_ <$> conditions ∨ t ∈ Type_ <$> newConditions)
  ∧ (NoDup (Type_ <$> conditions) → NoDup (Type_ <$> merged))
  ∧ (∀ a u, conditions = [a] → newConditions = [u] → Type_ u = Type_ a →
       merged = [mkCondition (Type_ a) (Status u)
                   (if decide (Status a = Status u) then LastTransitionTime a
                    else LastTransitionTime (stamped (time_Now w).2 u))
                   (Reason u) (Message u)])
  ∧ (∀ a u, conditions = [a] → newConditions = [u] → Type_ u ≠ Type_ a →
       merged = [a; stamped (time_Now w).2 u]).
Proof.
  cbn zeta. split_and!.
  - intros u rest ->. unfold mergeStatusConditions. cbn [app].
    rewrite !mergeEach_cons.
    by destruct (SetStatusCondition conditions u w).
  - intros u i e -> Hfind Hi. rewrite mergeStatusConditions_one.
    by apply SetStatusCondition_present.
  - intros u i e -> Hfind Hi Hstatus Hreason Hmessage.
    rewrite mergeStatusConditions_one.
    rewrite (SetStatusCondition_present _ _ e i) by done.
    apply list_insert_id. rewrite Hi. f_equal.
    unfold overwritten. rewrite decide_True by done.
    rewrite Hstatus, Hreason, Hmessage. by destruct e.
  - intros u -> Habs. rewrite mergeStatusConditions_one.
    by apply SetStatusCondition_absent.
  - apply mergeEach_types_prefix.
  - intros i c Hi Hnot. by apply mergeEach_other.
  - intros t. apply mergeEach_types.
  - apply mergeEach_NoDup.
  - intros a u -> -> Hty. rewrite mergeStatusConditions_one.
    rewrite (SetStatusCondition_present [a] u a O); [reflexivity | | reflexivity].
    cbn [FindStatusCondition]. by rewrite decide_True.
  - intros a u -> -> Hty. rewrite mergeStatusConditions_one.
    rewrite SetStatusCondition_absent; [reflexivity|].
    cbn [fmap list_fmap]. by intros ?%list_elem_of_singleton.
Qed.

End Merge.

(** ** The restart predicate *)

Module RestartPredicate.
Import ignoreDeploymentRestartPredicate.

Lemma detectRestart_new (e : UpdateEvent) (m : gmap string Z) :
  newRestart e →
  detectRestart e m
  = (<[namespacedName e := Generation (depMeta (ObjectNew e))]> m, false).
Proof.
  intros (v & Hv & Hold). unfold detectRestart. rewrite Hv.
  destruct Hold as [Hsize|Hne].
  - by rewrite (bool_decide_eq_true_2 _ Hsize).
  - rewrite (bool_decide_eq_true_2 _ Hne). by rewrite orb_true_r.
Qed.

Lemma detectRestart_same (e : UpdateEvent) (m : gmap string Z) :
  ¬ newRestart e → detectRestart e m = (m, true).
Proof.
  intros Hnot. unfold detectRestart.
  destruct (depTemplateAnnotations (ObjectNew e) !! restartedAt) as [v|] eqn:Hv;
    [|reflexivity].
  rewrite bool_decide_eq_false_2, bool_decide_eq_false_2; [reflexivity | |].
  - intros Hne. apply Hnot. exists v. by split; [|right].
  - intros Hsize. apply Hnot. exists v. by split; [|left].
Qed.

Lemma UpdateFunc_owned (e : UpdateEvent) (m : gmap string Z) :
  owned e →
  UpdateFunc e m
  = match m !! namespacedName e with
    | Some g =>
        if decide (g = Generation (depMeta (ObjectNew e))) then (m, false)
        else detectRestart e (delete (namespacedName e) m)
    | None => detectRestart e m
    end.
Proof.
  intros (owner & rest & Hrefs & Hkind). unfold UpdateFunc. rewrite Hrefs.
  rewrite decide_False by (intros Hne; by apply Hne). reflexivity.
Qed.

(** While the events carry the generation on record they are dropped and
    the record stays. *)
Lemma run_held (held : list UpdateEvent) (key : string) (g : Z)
    (m : gmap string Z) :
  Forall (λ e, owned e ∧ namespacedName e = key
               ∧ Generation (depMeta (ObjectNew e)) = g) held →
  m !! key = Some g →
  run held m = (m, replicate (length held) false).
Proof.
  intros Hall Hm. induction Hall as [|e held (Hown & Hkey & Hgen) _ IH];
    [reflexivity|].
  cbn [run length replicate]. unfold_M.
  rewrite (UpdateFunc_owned e m Hown), Hkey, Hm, Hgen.
  rewrite decide_True by reflexivity. by rewrite IH.
Qed.

Lemma run_app (es1 es2 : list UpdateEvent) (m : gmap string Z) :
  run (es1 ++ es2) m
  = let '(m1, v1) := run es1 m in
    let '(m2, v2) := run es2 m1 in (m2, v1 ++ v2).
Proof.
  revert m. induction es1 as [|e es1 IH]; intros m.
  - cbn. by destruct (run es2 m).
  - cbn [app run]. unfold_M. destruct (UpdateFunc e m) as [m1 v].
    rewrite IH. destruct (run es1 m1) as [m2 v1].
    by destruct (run es2 m2).
Qed.

(** C5. For an update event on a deployment whose first owner is a
    DexServer, with [m] the restarts on record.  If the new pod template
    carries a restart timestamp and the old one has no annotations or
    another value, the event is dropped and its generation is put on
    record.  If the event carries the generation on record it is dropped
    and the record stays.  If it carries another generation the record is
    cleared, and the event passes unless it starts a restart itself.
    With nothing on record an event that starts no restart passes.  So a
    run that starts a restart, goes on with events of the recorded
    generation and ends with an event of another generation that starts
    no restart drops all but the last and leaves nothing on record. *)
Theorem UpdateFunc_restart_suppression (e : UpdateEvent) (m : gmap string Z) :
  owned e →
  (newRestart e →
     UpdateFunc e m
     = (<[namespacedName e := Generation (depMeta (ObjectNew e))]> m, false))
  ∧ (m !! namespacedName e = Some (Generation (depMeta (ObjectNew e))) →
     UpdateFunc e m = (m, false))
  ∧ (∀ g, m !! namespacedName e = Some g →
          g ≠ Generation (depMeta (ObjectNew e)) → ¬ newRestart e →
          UpdateFunc e m = (delete (namespacedName e) m, true))
  ∧ (m !! namespacedName e = None → ¬ newRestart e → UpdateFunc e m = (m, true))
  ∧ (∀ (held : list UpdateEvent) (next : UpdateEvent),
       newRestart e →
       Forall (λ e', owned e' ∧ namespacedName e' = namespacedName e
                     ∧ Generation (depMeta (ObjectNew e'))
                       = Generation (depMeta (ObjectNew e))) held →
       owned next → namespacedName next = namespacedName e →
       Generation (depMeta (ObjectNew next)) ≠ Generation (depMeta (ObjectNew e)) →
       ¬ newRestart next →
       run (e :: held ++ [next]) m
       = (delete (namespacedName e) m,
          false :: replicate (length held) false ++ [true])).
Proof.
  intros Hown.
  assert (Hnew : newRestart e →
     UpdateFunc e m
     = (<[namespacedName e := Generation (depMeta (ObjectNew e))]> m, false)).
  { intros Hnew. rewrite (UpdateFunc_owned e m Hown).
    destruct (m !! namespacedName e) as [g|] eqn:Hm;
      [|by apply detectRestart_new].
    case_decide as Hg.
    - subst g. by rewrite insert_id.
    - rewrite detectRestart_new by exact Hnew. by rewrite insert_delete_eq. }
  split_and!; [exact Hnew | | | |].
  - intros Hm. rewrite (UpdateFunc_owned e m Hown), Hm.
    by rewrite decide_True.
  - intros g Hm Hg Hnot. rewrite (UpdateFunc_owned e m Hown), Hm.
    rewrite decide_False by exact Hg. by apply detectRestart_same.
  - intros Hm Hnot. rewrite (UpdateFunc_owned e m Hown), Hm.
    by apply detectRestart_same.
  - intros held next Hrestart Hheld Hnext Hkey Hgen Hnot.
    cbn [run]. unfold_M. rewrite (Hnew Hrestart).
    rewrite run_app.
    rewrite (run_held held (namespacedName e) (Generation (depMeta (ObjectNew e))))
      by (done || apply lookup_insert_eq).
    cbn [run]. unfold_M.
    rewrite (UpdateFunc_owned next _ Hnext), Hkey, lookup_insert_eq.
    rewrite decide_False by congruence.
    rewrite detectRestart_same by exact Hnot.
    by rewrite <- Hkey, delete_insert_eq, Hkey.
Qed.

End RestartPredicate.

(** ** Runs on the in-memory cluster *)

Section Runs.
Import Scenario.
#[local] Existing Instance InMemory.runtime.
#[local] Existing Instance lib.

(** C1, on the code.  The instance refers to the credential secret
    [github-oauth], which the cluster does not hold; every other step can
    succeed.  The lookup of the credential returns the not-found error,
    yet [syncConfigMap] returns nil.  The pass returns no error and asks
    for the hourly requeue, the condition written on the instance is
    Applied, True, with reason Applied, the config map template was not
    applied, and the deployment template was. *)
Theorem Reconcile_missing_credential_secret :
  InMemory.secrets cluster !! ("idp", "github-oauth") = None
  ∧ (getConnectorSecretFromRef github dexServer cluster).2
    = ("", Some (InMemory.notFound "secrets" "github-oauth"))
  ∧ (syncConfigMap dexServer (manageMTLSSecret dexServer cluster).1).2 = None
  ∧ (Reconcile req cluster).2 = (mkCtrlResult true Hour, None)
  ∧ Conditions <$> InMemory.dexServers (Reconcile req cluster).1 !! ("idp", "dex")
    = Some [mkCondition "Applied" "True" (mkTime noon 0) "Applied"
              "DexServer is applied"]
  ∧ fst <$> InMemory.applied (Reconcile req cluster).1
    = ["dex-server/service_http.yaml"; "dex-server/service_grpc.yaml";
       "dex-server/service_account.yaml"; "dex-server/cluster_role_binding.yaml";
       "dex-server/deployment.yaml"; "dex-server/ingress.yaml"]
  ∧ InMemory.configMaps (Reconcile req cluster).1 = ∅.
Proof. vm_compute. done. Qed.


(** C7, as stated, fails when the status cannot be written: all eight
    steps succeed, and the pass returns the conflict and no requeue
    delay; the stored instance has no condition. *)
Lemma Reconcile_status_write_conflict :
  (run_steps_spec pass_steps_spec dexServer conflicted).2 = None
  ∧ (Reconcile req conflicted).2 = (noRequeue, Some InMemory.conflict)
  ∧ (Reconcile req conflicted).2 ≠ (mkCtrlResult true Hour, None)
  ∧ Conditions <$> InMemory.dexServers (Reconcile req conflicted).1 !! ("idp", "dex")
    = Some [].
Proof. vm_compute. split_and!; (reflexivity || discriminate). Qed.

(** A pass in which all steps succeed and the status is written. *)
Lemma Reconcile_all_steps_succeed_witness :
  let w2 := (run_steps_spec pass_steps_spec dexServer clusterWithSecret).1 in
  (Get_DexServer req clusterWithSecret = (clusterWithSecret, inl dexServer)
   ∧ run_steps_spec pass_steps_spec dexServer clusterWithSecret = (w2, None))
  ∧ Reconcile req clusterWithSecret
    = (let '(w3, (_, uerr)) :=
         updateDexServerStatusConditions dexServer
           [mkCondition "Applied" "True" zeroTime "Applied" "DexServer is applied"]
           w2 in
       (w3, match uerr with
            | Some uerr => (noRequeue, Some uerr)
            | None => (mkCtrlResult true (1 * Hour), None)
            end))
  ∧ (Reconcile req clusterWithSecret).2 = (mkCtrlResult true 3600000000000, None)
  ∧ Conditions
      <$> InMemory.dexServers (Reconcile req clusterWithSecret).1 !! ("idp", "dex")
    = Some [mkCondition "Applied" "True" (mkTime noon 0) "Applied"
              "DexServer is applied"].
Proof.
  cbn zeta.
  assert (Get_DexServer req clusterWithSecret = (clusterWithSecret, inl dexServer))
    as H1 by reflexivity.
  assert (run_steps_spec pass_steps_spec dexServer clusterWithSecret
          = ((run_steps_spec pass_steps_spec dexServer clusterWithSecret).1, None))
    as H2 by (vm_compute; reflexivity).
  split_and!; [exact H1 | exact H2 | | |].
  - exact (Reconcile_all_steps_succeed req dexServer _ _ _ H1 H2).
  - vm_compute. reflexivity.
  - vm_compute. reflexivity.
Defined.


(** The five cases of the bundle: absent; without annotation; with one
    that does not parse; expiring within the hour; expiring in thirty
    days. *)
Lemma manageMTLSSecret_ensure_witness :
  let fresh :=
    defineMTLSSecret dexServer
      (mkMTLSCerts "CA;" "CAKEY;" "CERT;" "CERTKEY;" "CLIENT;" "CLIENTKEY;"
         (mkTime (noon + 365 * InMemory.day) 0)) in
  let stale := clusterWithBundle None in
  let corrupt := clusterWithBundle (Some "next week") in
  let expiring := clusterWithBundle (Some "2021-11-09T14:00:00Z") in
  let valid := clusterWithBundle (Some "2021-12-09T13:00:00Z") in
  (manageMTLSSecret dexServer cluster
   = regenerate_spec Create_Secret "error creating mtls secret" dexServer cluster
   ∧ manageMTLSSecret dexServer cluster
     = (InMemory.set_secrets cluster {[ ("idp", "grpc-mtls") := fresh ]}, None))
  ∧ (manageMTLSSecret dexServer stale
     = regenerate_spec Update_Secret "error updating mtls secret" dexServer stale
     ∧ manageMTLSSecret dexServer stale
       = (InMemory.set_secrets cluster {[ ("idp", "grpc-mtls") := fresh ]}, None))
  ∧ (manageMTLSSecret dexServer corrupt
     = regenerate_spec Update_Secret "error updating mtls secret" dexServer corrupt
     ∧ manageMTLSSecret dexServer corrupt
       = (InMemory.set_secrets cluster {[ ("idp", "grpc-mtls") := fresh ]}, None))
  ∧ (manageMTLSSecret dexServer expiring
     = regenerate_spec Update_Secret "error updating mtls secret" dexServer expiring
     ∧ manageMTLSSecret dexServer expiring
       = (InMemory.set_secrets cluster {[ ("idp", "grpc-mtls") := fresh ]}, None))
  ∧ manageMTLSSecret dexServer valid = (valid, None).
Proof.
  cbn zeta. split_and!.
  - exact (proj1 (manageMTLSSecret_ensure dexServer cluster) cluster
             (InMemory.notFound "secrets" "grpc-mtls") eq_refl eq_refl).
  - vm_compute. reflexivity.
  - exact (proj1 (proj2 (manageMTLSSecret_ensure dexServer (clusterWithBundle None)))
             _ (bundle None) eq_refl eq_refl).
  - vm_compute. reflexivity.
  - refine (proj1 (proj2 (proj2
              (manageMTLSSecret_ensure dexServer (clusterWithBundle (Some "next week")))))
              _ (bundle (Some "next week"))
              (Errorf "cannot parse next week as a time") eq_refl _ _).
    + vm_compute. discriminate.
    + vm_compute. reflexivity.
  - vm_compute. reflexivity.
  - refine (proj1 (proj2 (proj2 (proj2
              (manageMTLSSecret_ensure dexServer
                 (clusterWithBundle (Some "2021-11-09T14:00:00Z"))))))
              _ (bundle (Some "2021-11-09T14:00:00Z"))
              (mkTime (noon + Hour) 0) _ eq_refl _ _ _).
    + vm_compute. discriminate.
    + vm_compute. reflexivity.
    + vm_compute. reflexivity.
  - vm_compute. reflexivity.
  - refine (proj1 (proj2 (proj2 (proj2 (proj2
              (manageMTLSSecret_ensure dexServer
                 (clusterWithBundle (Some "2021-12-09T13:00:00Z")))))))
              _ (bundle (Some "2021-12-09T13:00:00Z"))
              (mkTime (noon + 30 * InMemory.day) 0) _ eq_refl _ _ _).
    + vm_compute. discriminate.
    + vm_compute. reflexivity.
    + vm_compute. reflexivity.
Defined.

(** The secret of the connector is there but cannot be read: the lookup
    error is dropped and the configuration is rendered with an empty
    client secret. *)
Lemma getConnectorSecretFromRef_lookup_errors_witness :
  credentialRef github = Some (mkSecretReference "github-oauth" "", "clientSecret")
  ∧ Get_Secret (mkNN "idp" "github-oauth") unreachable
    = (unreachable, inr InMemory.unreachable)
  ∧ getConnectorSecretFromRef github dexServer unreachable
    = (unreachable, ("", None))
  ∧ (getConnectorSecretFromRef github dexServer cluster).2
    = ("", Some (InMemory.notFound "secrets" "github-oauth"))
  ∧ (getConnectorSecretFromRef github dexServer clusterWithSecret).2
    = ("s3cr3t", None)
  ∧ InMemory.applied (syncConfigMap dexServer unreachable).1
    = [("dex-server/config_map.yaml",
        ConfigMapValues "https://dex.example.com"
          "- type: github id: github secret: ;" dexServer)].
Proof.
  pose proof (getConnectorSecretFromRef_lookup_errors github dexServer
                (mkSecretReference "github-oauth" "") "clientSecret")
    as Hthm.
  split_and!.
  - reflexivity.
  - reflexivity.
  - rewrite (proj1 (proj2 (Hthm unreachable eq_refl)) unreachable
               InMemory.unreachable eq_refl eq_refl).
    vm_compute. reflexivity.
  - rewrite (proj1 (Hthm cluster eq_refl) cluster
               (InMemory.notFound "secrets" "github-oauth") eq_refl eq_refl).
    reflexivity.
  - exact (proj1 (proj2 (proj2 (Hthm clusterWithSecret eq_refl)))
             clusterWithSecret oauthSecret eq_refl).
  - vm_compute. reflexivity.
Defined.

(** C4, as stated, fails.  An update that changes only the reason is
    stored but the last-transition time stays that of the existing
    record, not the current time; and existing records of one type stay
    as many as they were. *)
Lemma mergeStatusConditions_keeps_transition_time :
  let then_ := mkTime 1000 0 in
  let existing := mkCondition "A" "True" then_ "R1" "" in
  let update := mkCondition "A" "True" zeroTime "R2" "" in
  ((mergeStatusConditions [existing] [update] cluster).2
   = [mkCondition "A" "True" then_ "R2" ""]
   ∧ (time_Now cluster).2 ≠ then_)
  ∧ (mergeStatusConditions [existing; existing] [update] cluster).2
    = [mkCondition "A" "True" then_ "R2" ""; existing].
Proof. vm_compute. split_and!; (reflexivity || discriminate). Qed.

(** The two merges of the specification: a record of type A with status
    True, merged with an update of type A, status False and reason R, and
    with an update of type B. *)
Lemma mergeStatusConditions_by_type_witness :
  let a := mkCondition "A" "True" (mkTime 1000 0) "" "" in
  (mergeStatusConditions [a] [mkCondition "A" "False" zeroTime "R" ""] cluster).2
  = [mkCondition "A" "False" (mkTime noon 0) "R" ""]
  ∧ (mergeStatusConditions [a] [mkCondition "B" "True" zeroTime "" ""] cluster).2
    = [a; mkCondition "B" "True" (mkTime noon 0) "" ""].
Proof.
  cbn zeta. split.
  - rewrite (proj1 (proj2 (proj2 (proj2 (proj2 (proj2 (proj2 (proj2 (proj2
               (mergeStatusConditions_by_type
                  [mkCondition "A" "True" (mkTime 1000 0) "" ""]
                  [mkCondition "A" "False" zeroTime "R" ""] cluster)))))))))
               _ _ eq_refl eq_refl eq_refl).
    vm_compute. reflexivity.
  - rewrite (proj2 (proj2 (proj2 (proj2 (proj2 (proj2 (proj2 (proj2 (proj2
               (mergeStatusConditions_by_type
                  [mkCondition "A" "True" (mkTime 1000 0) "" ""]
                  [mkCondition "B" "True" zeroTime "" ""] cluster)))))))))
               _ _ eq_refl eq_refl ltac:(discriminate)).
    vm_compute. reflexivity.
Defined.

(** C5, as stated, fails.  After a first restart the record holds
    generation 2; the event of a second restart carries generation 3,
    which is not the recorded one, yet it is dropped and generation 3 is
    put on record: the record is not cleared.  And an event whose new pod
    template has lost the timestamp differs from the old one in that
    annotation, yet it passes. *)
Lemma UpdateFunc_second_restart :
  (ignoreDeploymentRestartPredicate.UpdateFunc restart1 ∅
   = ({[ "idp:dex" := 2 ]}, false)
   ∧ Generation (depMeta (ObjectNew restart2)) = 3
   ∧ ignoreDeploymentRestartPredicate.UpdateFunc restart2 {[ "idp:dex" := 2 ]}
     = ({[ "idp:dex" := 3 ]}, false)
   ∧ ignoreDeploymentRestartPredicate.run [restart1; progress1; restart2] ∅
     = ({[ "idp:dex" := 3 ]}, [false; false; false]))
  ∧ (depTemplateAnnotations (ObjectOld unstamp) !! restartedAt = Some t2
     ∧ depTemplateAnnotations (ObjectNew unstamp) !! restartedAt = None
     ∧ ignoreDeploymentRestartPredicate.UpdateFunc unstamp ∅ = (∅, true)).
Proof. split_and!; vm_compute; reflexivity. Qed.

(** A restart, its progress at the recorded generation, then a change at
    another generation. *)
Lemma UpdateFunc_restart_suppression_witness :
  ignoreDeploymentRestartPredicate.owned restart1
  ∧ ignoreDeploymentRestartPredicate.newRestart restart1
  ∧ ignoreDeploymentRestartPredicate.UpdateFunc restart1 ∅
    = ({[ "idp:dex" := 2 ]}, false)
  ∧ ignoreDeploymentRestartPredicate.run [restart1; progress1; progress1; change] ∅
    = (∅, [false; false; false; true]).
Proof.
  assert (ignoreDeploymentRestartPredicate.owned restart1) as Hown.
  { exists (mkOwnerReference "DexServer" "dex" true), []. by split. }
  assert (ignoreDeploymentRestartPredicate.newRestart restart1) as Hnew.
  { exists t1. split; [reflexivity|]. right. vm_compute. discriminate. }
  pose proof (RestartPredicate.UpdateFunc_restart_suppression restart1 ∅ Hown)
    as (Hfirst & _ & _ & _ & Hrun).
  split_and!; [exact Hown | exact Hnew | exact (Hfirst Hnew) |].
  refine (eq_trans (Hrun [progress1; progress1] change Hnew _ _ eq_refl _ _) _).
  - repeat constructor;
      exists (mkOwnerReference "DexServer" "dex" true), []; by split.
  - exists (mkOwnerReference "DexServer" "dex" true), []. by split.
  - vm_compute. discriminate.
  - intros (v & Hv & [Hsize|Hne]); vm_compute in Hv, Hsize || vm_compute in Hv, Hne;
      [discriminate | congruence].
  - reflexivity.
Defined.



End Runs.

(** * Further properties *)

(** ** Labels and the predicates that read them *)

Section Labels.
Context {W : Type} `{Runtime W}.

Lemma set_Label_lookup (secret : Secret) (k v k' : string) :
  Labels (secMeta (set_Label secret k v)) !! k'
  = if decide (k = k') then Some v else Labels (secMeta secret) !! k'.
Proof. unfold set_Label. cbn. apply lookup_insert. Qed.

(** X1. [checkAndAddLabelToSecret] returns the secret with the credential
    label on it and every other label, the name, the namespace, the
    annotations, the owners and the data as they were.  A secret that has
    the label, whatever its value, comes back unchanged and no update is
    issued; one that lacks it gets the label with an empty value and is
    handed to one update.  A second call on the result issues none. *)
Theorem checkAndAddLabelToSecret_labels (secret : Secret) (w : W) :
  let '(w', labelled) := checkAndAddLabelToSecret secret w in
  is_Some (Labels (secMeta labelled) !! IDP_CREDENTIAL_LABEL)
  ∧ (∀ k, k ≠ IDP_CREDENTIAL_LABEL →
       Labels (secMeta labelled) !! k = Labels (secMeta secret) !! k)
  ∧ (∀ v, Labels (secMeta secret) !! IDP_CREDENTIAL_LABEL = Some v →
       labelled = secret ∧ w' = w)
  ∧ (Labels (secMeta secret) !! IDP_CREDENTIAL_LABEL = None →
       Labels (secMeta labelled) !! IDP_CREDENTIAL_LABEL = Some ""
       ∧ w' = (Update_Secret labelled w).1)
  ∧ (secData labelled = secData secret
     ∧ Name (secMeta labelled) = Name (secMeta secret)
     ∧ Namespace (secMeta labelled) = Namespace (secMeta secret)
     ∧ Annotations (secMeta labelled) = Annotations (secMeta secret)
     ∧ OwnerReferences (secMeta labelled) = OwnerReferences (secMeta secret))
  ∧ (∀ w2, checkAndAddLabelToSecret labelled w2 = (w2, labelled)).
Proof.
  unfold checkAndAddLabelToSecret.
  destruct (Labels (secMeta secret) !! IDP_CREDENTIAL_LABEL) as [v|] eqn:Hl.
  - cbn. split_and!; try done.
    intros w2. by rewrite Hl.
  - unfold_M. destruct (Update_Secret _ w) as [w' e] eqn:Hup.
    split_and!; try done.
    + rewrite set_Label_lookup. by rewrite decide_True.
    + intros k Hk. rewrite set_Label_lookup. by rewrite decide_False.
    + intros _. split; [|by rewrite Hup].
      rewrite set_Label_lookup. by rewrite decide_True.
    + intros w2. rewrite set_Label_lookup. by rewrite decide_True.
Qed.

(** X2. When the secret of a connector of a known type is found,
    [getConnectorSecretFromRef] returns the value under the data key of
    the connector type with a nil error, and the empty string when the
    secret has no such key.  It issues one update, of that secret with
    the credential label added, when the label is missing, and none when
    the label is there. *)
Theorem getConnectorSecretFromRef_found_labels (connector : ConnectorSpec)
    (m : DexServer) (ref : SecretReference) (key : string) (secret : Secret)
    (w w1 : W) :
  credentialRef connector = Some (ref, key) →
  Get_Secret (credentialKey ref m) w = (w1, inl secret) →
  getConnectorSecretFromRef connector m w
  = (match Labels (secMeta secret) !! IDP_CREDENTIAL_LABEL with
     | Some _ => w1
     | None => (Update_Secret (set_Label secret IDP_CREDENTIAL_LABEL "") w1).1
     end,
     (default "" (secData secret !! key), None)).
Proof.
  intros Href Hget. rewrite (getConnectorSecretFromRef_known _ _ _ _ Href).
  unfold secretFromRef, Get_Secret_into. unfold_M.
  fold (credentialKey ref m). rewrite Hget. cbn.
  unfold checkAndAddLabelToSecret.
  destruct (Labels (secMeta secret) !! IDP_CREDENTIAL_LABEL); [reflexivity|].
  unfold_M. by destruct (Update_Secret _ w1).
Qed.

(** X3. The secret predicate lets an update event through exactly when the
    new object carries the credential label, whatever its value; so it
    lets through every secret that [checkAndAddLabelToSecret] has
    returned, and later updates of it that keep its labels. *)
Theorem secretPredicate_after_label (secret : Secret) (w : W) :
  (∀ s, secretPredicate.UpdateFunc s = true
        ↔ is_Some (Labels (secMeta s) !! IDP_CREDENTIAL_LABEL))
  ∧ secretPredicate.UpdateFunc (checkAndAddLabelToSecret secret w).2 = true
  ∧ (∀ s, Labels (secMeta s) = Labels (secMeta (checkAndAddLabelToSecret secret w).2) →
          secretPredicate.UpdateFunc s = true).
Proof.
  assert (Hiff : ∀ s, secretPredicate.UpdateFunc s = true
                      ↔ is_Some (Labels (secMeta s) !! IDP_CREDENTIAL_LABEL)).
  { intros s. unfold secretPredicate.UpdateFunc.
    destruct (Labels (secMeta s) !! IDP_CREDENTIAL_LABEL);
      [split; [by eexists | done] | split; [done | by intros [? ?]]]. }
  assert (Hlab : is_Some (Labels (secMeta (checkAndAddLabelToSecret secret w).2)
                            !! IDP_CREDENTIAL_LABEL)).
  { unfold checkAndAddLabelToSecret.
    destruct (Labels (secMeta secret) !! IDP_CREDENTIAL_LABEL) as [v|] eqn:Hl.
    - cbn. by rewrite Hl.
    - unfold_M. destruct (Update_Secret _ w). cbn.
      rewrite lookup_insert_eq. done. }
  split_and!; [exact Hiff | by apply Hiff |].
  intros s Hs. apply Hiff. by rewrite Hs.
Qed.

(** X4. The instance predicate lets an update through exactly when the
    finalizers or the spec differ.  The instance that
    [updateDexServerStatusConditions] writes has the name, the namespace
    and the spec it had, so the status write of a pass is not let
    through: the controller does not wake itself.  Creations pass;
    deletions and generic events do not. *)
Theorem dexServerPredicate_ignores_status (m : DexServer)
    (newConditions : list Condition) (finalizers : list string) (w : W) :
  let written := (updateDexServerStatusConditions m newConditions w).2.1 in
  (∀ e, dexServerPredicate.UpdateFunc e = true
        ↔ FinalizersOld e ≠ FinalizersNew e
          ∨ Spec (dexServerOld e) ≠ Spec (dexServerNew e))
  ∧ (dsName written = dsName m ∧ dsNamespace written = dsNamespace m
     ∧ Spec written = Spec m)
  ∧ dexServerPredicate.UpdateFunc
      (mkDexServerUpdateEvent finalizers m finalizers written) = false
  ∧ (∀ d, dexServerPredicate.CreateFunc d = true
          ∧ dexServerPredicate.DeleteFunc d = false
          ∧ dexServerPredicate.GenericFunc d = false).
Proof.
  cbn zeta.
  assert (Hwritten : (updateDexServerStatusConditions m newConditions w).2.1
                     = set_Conditions m (mergeStatusConditions (Conditions m) newConditions w).2).
  { unfold updateDexServerStatusConditions. unfold_M.
    destruct (mergeStatusConditions _ _ w) as [w1 conds].
    by destruct (Status_Update _ w1). }
  split_and!.
  - intros e. unfold dexServerPredicate.UpdateFunc.
    rewrite orb_true_iff, !negb_true_iff, !bool_decide_eq_false. done.
  - by rewrite Hwritten.
  - by rewrite Hwritten.
  - by rewrite Hwritten.
  - rewrite Hwritten. unfold dexServerPredicate.UpdateFunc. cbn.
    by rewrite !bool_decide_eq_true_2.
  - done.
Qed.

End Labels.

(** ** The configuration resource *)

Section ConfigMap.
Context `{GoLib} {W : Type} `{Runtime W}.

(** The loop over a list in two parts is the loop over the first part
    followed, unless that one returned, by the loop over the second. *)
Lemma syncConfigMap_range_app (m : DexServer) (pre post : list ConnectorSpec)
    (acc : list DexConnectorSpec) (w : W) :
  syncConfigMap_range m (pre ++ post) acc w
  = let '(w1, r) := syncConfigMap_range m pre acc w in
    match r with
    | None => (w1, None)
    | Some acc' => syncConfigMap_range m post acc' w1
    end.
Proof.
  revert acc w. induction pre as [|c pre IH]; intros acc w; [reflexivity|].
  cbn [app syncConfigMap_range].
  destruct (connType c); unfold_M; try reflexivity.
  - destruct (getConnectorSecretFromRef c m w) as [w1 [secret [e|]]];
      [reflexivity | apply IH].
  - destruct (getConnectorSecretFromRef c m w) as [w1 [secret [e|]]];
      [reflexivity | apply IH].
  - destruct (getConnectorSecretFromRef c m w) as [w1 [secret [e|]]];
      [reflexivity|].
    destruct (ldapCertPaths c m w1) as [w2 [[[p1 p2] p3]|]];
      [apply IH | reflexivity].
Qed.

(** X5. A connector whose type is none of GitHub, Microsoft and LDAP makes
    [syncConfigMap] return a nil error without marshalling or applying
    anything: the connectors before it have been looked up, those after
    it are not, and the config map is left as it was even when every
    other connector is well formed. *)
Theorem syncConfigMap_unknown_type (m : DexServer) (pre post : list ConnectorSpec)
    (c : ConnectorSpec) (s : string) (w : W) :
  Connectors (Spec m) = pre ++ c :: post →
  connType c = ConnectorTypeOther s →
  getConnectorSecretFromRef c m w = (w, ("", Some (Errorf "could not retrieve secret")))
  ∧ syncConfigMap m w = ((syncConfigMap_range m pre [] w).1, None).
Proof.
  intros Hconn Htype. split.
  - unfold getConnectorSecretFromRef. by rewrite Htype.
  - unfold syncConfigMap. unfold_M. rewrite Hconn, syncConfigMap_range_app.
    destruct (syncConfigMap_range m pre [] w) as [w1 [acc|]]; [|reflexivity].
    cbn [syncConfigMap_range]. by rewrite Htype.
Qed.

(** X6. When the loop of [syncConfigMap] runs to its end, it has rendered
    one entry per connector, in the order of the spec, each with the id
    and the name of its connector and the text of its type; and every
    connector was of a known type. *)
Theorem syncConfigMap_range_renders (m : DexServer) (range : list ConnectorSpec)
    (acc rendered : list DexConnectorSpec) (w w' : W) :
  syncConfigMap_range m range acc w = (w', Some rendered) →
  length rendered = (length acc + length range)%nat
  ∧ dcId <$> rendered = (dcId <$> acc) ++ (connId <$> range)
  ∧ dcName <$> rendered = (dcName <$> acc) ++ (connName <$> range)
  ∧ dcType <$> rendered
    = (dcType <$> acc) ++ ((λ c, ConnectorType_string (connType c)) <$> range)
  ∧ Forall (λ c, is_Some (credentialRef c)) range.
Proof.
  revert acc w. induction range as [|c range IH]; intros acc w Hrun.
  - cbn in Hrun. injection Hrun as _ <-.
    rewrite !app_nil_r. split_and!; [cbn; lia | done..].
  - cbn [syncConfigMap_range] in Hrun.
    assert (Hstep : ∀ entry w1,
      dcId entry = connId c → dcName entry = connName c →
      dcType entry = ConnectorType_string (connType c) →
      is_Some (credentialRef c) →
      syncConfigMap_range m range (acc ++ [entry]) w1 = (w', Some rendered) →
      length rendered = (length acc + length (c :: range))%nat
      ∧ dcId <$> rendered = (dcId <$> acc) ++ (connId <$> c :: range)
      ∧ dcName <$> rendered = (dcName <$> acc) ++ (connName <$> c :: range)
      ∧ dcType <$> rendered
        = (dcType <$> acc)
          ++ ((λ c, ConnectorType_string (connType c)) <$> c :: range)
      ∧ Forall (λ c, is_Some (credentialRef c)) (c :: range)).
    { intros entry w1 Hid Hname Htype Hknown Hrest.
      destruct (IH _ _ Hrest) as (Hlen & Hids & Hnames & Htypes & Hall).
      rewrite length_app in Hlen. rewrite !fmap_app in Hids, Hnames, Htypes.
      cbn [fmap list_fmap length] in *.
      rewrite Hid in Hids. rewrite Hname in Hnames. rewrite Htype in Htypes.
      rewrite <- !app_assoc in Hids, Hnames, Htypes.
      split_and!; [lia | done | done | done | by constructor]. }
    unfold credentialRef in Hstep.
    destruct (connType c) eqn:Hty; unfold_M; try discriminate.
    + destruct (getConnectorSecretFromRef c m w) as [w1 [secret [e|]]];
        [discriminate|]. refine (Hstep _ _ _ _ _ _ Hrun); by eauto.
    + destruct (getConnectorSecretFromRef c m w) as [w1 [secret [e|]]];
        [discriminate|]. refine (Hstep _ _ _ _ _ _ Hrun); by eauto.
    + destruct (getConnectorSecretFromRef c m w) as [w1 [secret [e|]]];
        [discriminate|].
      destruct (ldapCertPaths c m w1) as [w2 [[[p1 p2] p3]|]]; [|discriminate].
      refine (Hstep _ _ _ _ _ _ Hrun); by eauto.
Qed.

(** X7. For an LDAP connector, by cases on its root CA reference.  Without
    a name nothing is read and no path is set.  With one, the label update
    is issued on the empty secret, before the read, and never on the
    secret read; then a not-found error ends [syncConfigMap] with nil, any
    other error leaves the three paths empty, and a secret that is found
    gives, for each of [ca.crt], [tls.crt] and [tls.key], the path of that
    file under the directory of the connector when the secret has data
    under that key and the empty path when it has none. *)
Theorem ldapCertPaths_cases (connector : ConnectorSpec) (m : DexServer) (w : W) :
  let ref := ldapRootCARef (connLDAP connector) in
  let w1 := (Update_Secret (set_Label emptySecret IDP_CREDENTIAL_LABEL "") w).1 in
  let path (data : gmap string string) (file : string) :=
    if decide (default "" (data !! file) = "") then ""
    else "/etc/dex/ldapcerts/" +:+ connId connector +:+ "/" +:+ file in
  (refName ref = "" → ldapCertPaths connector m w = (w, Some ("", "", "")))
  ∧ (refName ref ≠ "" →
     ldapCertPaths connector m w
     = let '(w2, r) := Get_Secret (credentialKey ref m) w1 in
       (w2, match r with
            | inr err => if IsNotFound err then None else Some ("", "", "")
            | inl secret =>
                Some (path (secData secret) "ca.crt",
                      path (secData secret) "tls.crt",
                      path (secData secret) "tls.key")
            end)).
Proof.
  cbn zeta. split.
  - intros Hname. unfold ldapCertPaths. rewrite decide_False; [reflexivity|].
    intros Hne. by apply Hne.
  - intros Hname. unfold ldapCertPaths. rewrite decide_True by exact Hname.
    unfold_M. rewrite checkAndAddLabelToSecret_empty.
    unfold Get_Secret_into. unfold_M. fold (credentialKey (ldapRootCARef (connLDAP connector)) m).
    destruct (Get_Secret _ _) as [w2 [secret|err]].
    + cbn. unfold index. rewrite !append_assoc.
      repeat case_decide; try done; reflexivity.
    + cbn. destruct (IsNotFound err); [reflexivity|].
      cbn. unfold index. rewrite !lookup_empty. cbn.
      rewrite !decide_False by (intros Hne; by apply Hne). reflexivity.
Qed.

End ConfigMap.

(** ** The deployment *)

Lemma append_inj_r (p a b : string) : p +:+ a = p +:+ b → a = b.
Proof.
  induction p as [|c p IH]; [done|].
  rewrite !append_cons. intros Heq. injection Heq as Heq. by apply IH.
Qed.

Lemma ldapVolumes_snoc (cs : list ConnectorSpec) (c : ConnectorSpec) :
  ldapVolumes (cs ++ [c])
  = if decide (mountsRootCA c)
    then ((ldapVolumes cs).1 ++ [certMount c], (ldapVolumes cs).2 ++ [certVolume c])
    else ldapVolumes cs.
Proof.
  unfold ldapVolumes. rewrite foldl_app. cbn [foldl].
  destruct (foldl _ _ cs) as [mounts volumes]. cbn [fst snd].
  destruct (decide (mountsRootCA c)) as [[Hty Hname]|Hno].
  - rewrite Hty. by rewrite decide_True by done.
  - destruct (connType c) eqn:Hty; try reflexivity.
    destruct (decide (refName (ldapRootCARef (connLDAP c)) ≠ "")) as [Hname|Hname];
      [|reflexivity].
    destruct Hno. by split.
Qed.

Lemma ldapVolumes_filter (cs : list ConnectorSpec) :
  ldapVolumes cs
  = (certMount <$> filter mountsRootCA cs, certVolume <$> filter mountsRootCA cs).
Proof.
  induction cs as [|c cs IH] using rev_ind; [reflexivity|].
  rewrite ldapVolumes_snoc, IH, filter_app, !fmap_app. cbn [fst snd].
  rewrite filter_cons, filter_nil.
  destruct (decide (mountsRootCA c)); [reflexivity|].
  cbn [fmap list_fmap]. by rewrite !app_nil_r.
Qed.

(** X8. The loop of [syncDeployment] over the connectors yields one volume
    and one mount for every LDAP connector that names a root CA secret, in
    the order of the spec, and nothing for any other connector: the two
    lists pair up name by name, each volume is backed by the secret its
    connector names, they are empty exactly when no connector names one,
    and distinct connector ids give distinct volume names and distinct
    mount paths. *)
Theorem ldapVolumes_mounts (cs : list ConnectorSpec) :
  ldapVolumes cs
  = (certMount <$> filter mountsRootCA cs, certVolume <$> filter mountsRootCA cs)
  ∧ vmName <$> (ldapVolumes cs).1 = volName <$> (ldapVolumes cs).2
  ∧ volSecretName <$> (ldapVolumes cs).2
    = (λ c, refName (ldapRootCARef (connLDAP c))) <$> filter mountsRootCA cs
  ∧ ((ldapVolumes cs).1 = [] ↔ Forall (λ c, ¬ mountsRootCA c) cs)
  ∧ (NoDup (connId <$> cs) →
     NoDup (volName <$> (ldapVolumes cs).2)
     ∧ NoDup (vmMountPath <$> (ldapVolumes cs).1)).
Proof.
  rewrite ldapVolumes_filter. cbn [fst snd]. split_and!.
  - reflexivity.
  - rewrite <- !list_fmap_compose. reflexivity.
  - rewrite <- !list_fmap_compose. reflexivity.
  - induction cs as [|c cs IH]; [done|].
    rewrite filter_cons, Forall_cons.
    destruct (decide (mountsRootCA c)); [|tauto].
    split; [done|]. by intros [? _].
  - intros Hids.
    assert (Hsub : NoDup (connId <$> filter mountsRootCA cs)).
    { eapply sublist_NoDup; [exact Hids|].
      apply fmap_sublist, sublist_filter. }
    rewrite <- !list_fmap_compose. split.
    + change (volName ∘ certVolume) with ((λ s, "ldapcerts-" +:+ s) ∘ connId).
      rewrite list_fmap_compose. apply NoDup_fmap_2; [|exact Hsub].
      intros a b. apply append_inj_r.
    + change (vmMountPath ∘ certMount)
        with ((λ s, "/etc/dex/ldapcerts/" +:+ s) ∘ connId).
      rewrite list_fmap_compose. apply NoDup_fmap_2; [|exact Hsub].
      intros a b. apply append_inj_r.
Qed.

Section DeploymentSteps.
Context `{GoLib} {W : Type} `{Runtime W}.


(** X10. [syncDeployment] applies nothing when a read fails.  An error of
    the config map lookup other than not-found is returned as it is, and
    so is a failure to marshal the config map that was found; an error of
    the bundle lookup other than not-found is returned wrapped.  In each
    case the world is left as the reads left it. *)
Theorem syncDeployment_read_errors (dexServer : DexServer) (image : string)
    (w : W) :
  getDexImagePullSpec = inl image →
  (∀ w1 err,
     Get_ConfigMap (mkNN (dsNamespace dexServer) (dsName dexServer)) w
     = (w1, inr err) →
     IsNotFound err = false →
     syncDeployment dexServer w = (w1, Some err))
  ∧ (∀ w1 dexConfigMap err,
     Get_ConfigMap (mkNN (dsNamespace dexServer) (dsName dexServer)) w
     = (w1, inl dexConfigMap) →
     json_Marshal_ConfigMap dexConfigMap = inr err →
     syncDeployment dexServer w = (w1, Some err))
  ∧ (∀ w1 found w2 err,
     Get_ConfigMap (mkNN (dsNamespace dexServer) (dsName dexServer)) w
     = (w1, found) →
     match found with
     | inl dexConfigMap =>
       ∃ jsonData, json_Marshal_ConfigMap dexConfigMap = inl jsonData
     | inr err => IsNotFound err = true
     end →
     getMTLSSecret dexServer w1 = (w2, inr err) →
     IsNotFound err = false →
     syncDeployment dexServer w
     = (w2, Some (Wrap err "error getting dex server grpc mtls secret"))).
Proof.
  intros Himage. unfold syncDeployment. rewrite Himage.
  destruct (ldapVolumes _) as [mounts volumes].
  destruct (decide (0 < length mounts)%nat); cbn zeta beta iota; unfold_M.
  all: split_and!.
  all: try (intros w1 err Hcm Hnf; by rewrite Hcm, Hnf).
  all: try (intros w1 dexConfigMap err Hcm Hjson; by rewrite Hcm, Hjson).
  all: intros w1 found w2 err Hcm Hfound Hget Hnf; rewrite Hcm;
    destruct found as [dexConfigMap|e];
    [ destruct Hfound as [jsonData ->]
    | rewrite Hfound; cbn [negb] ];
    by rewrite Hget, Hnf.
Qed.

(** The values that [syncDeployment] hands to the template once its
    reads have gone through. *)
Lemma syncDeployment_values (dexServer : DexServer) (image : string)
    (w w1 w2 : W) (found : Result ConfigMap) (bundle : Result Secret) :
  getDexImagePullSpec = inl image →
  Get_ConfigMap (mkNN (dsNamespace dexServer) (dsName dexServer)) w
  = (w1, found) →
  match found with
  | inl dexConfigMap =>
       ∃ jsonData, json_Marshal_ConfigMap dexConfigMap = inl jsonData
  | inr err => IsNotFound err = true
  end →
  getMTLSSecret dexServer w1 = (w2, bundle) →
  (∀ e, bundle = inr e → IsNotFound e = true) →
  syncDeployment dexServer w
  = ApplyDeployments dexServer
      (DeploymentTemplateValues
         (mkDeploymentValues image
            match found with
            | inl dexConfigMap =>
                match json_Marshal_ConfigMap dexConfigMap with
                | inl jsonData => configHash jsonData
                | inr _ => ""
                end
            | inr _ => ""
            end
            SERVICE_ACCOUNT_NAME (dsName dexServer +:+ SECRET_WEB_TLS_SUFFIX)
            SECRET_MTLS_NAME
            match bundle with
            | inl mtlsSecret =>
                index (Annotations (secMeta mtlsSecret)) MTLS_CERT_EXPIRY_ANNOTATION
            | inr _ => ""
            end
            dexServer
            (if decide ((ldapVolumes (Connectors (Spec dexServer))).1 = []) then ""
             else match yaml_Marshal_VolumeMounts
                          (ldapVolumes (Connectors (Spec dexServer))).1 with
                  | inl text => text
                  | inr _ => ""
                  end)
            (if decide ((ldapVolumes (Connectors (Spec dexServer))).1 = []) then ""
             else match yaml_Marshal_Volumes
                          (ldapVolumes (Connectors (Spec dexServer))).2 with
                  | inl text => text
                  | inr _ => ""
                  end)))
      ["dex-server/deployment.yaml"] w2.
Proof.
  intros Himage Hcm Hfound Hget Hbundle.
  unfold syncDeployment. rewrite Himage.
  destruct (ldapVolumes _) as [mounts volumes]. cbn [fst snd].
  destruct (decide (mounts = [])) as [->|Hne].
  - rewrite decide_False by (cbn; lia).
    cbn zeta beta iota; unfold_M; rewrite Hcm.
    destruct found as [dexConfigMap|e];
      [destruct Hfound as [jsonData ->] | rewrite Hfound; cbn [negb]];
      rewrite Hget;
      (destruct bundle as [mtlsSecret|e'];
       [|rewrite (Hbundle e' eq_refl); cbn [negb]]);
      reflexivity.
  - rewrite decide_True by (destruct mounts; [done | cbn; lia]).
    cbn zeta beta iota; unfold_M; rewrite Hcm.
    destruct found as [dexConfigMap|e];
      [destruct Hfound as [jsonData ->] | rewrite Hfound; cbn [negb]];
      rewrite Hget;
      (destruct bundle as [mtlsSecret|e'];
       [|rewrite (Hbundle e' eq_refl); cbn [negb]]);
      reflexivity.
Qed.

(** X11. A failure to marshal the additional volumes or their mounts does
    not fail [syncDeployment]: the error is dropped, the template is given
    the empty string in place of the text that could not be produced, and
    the deployment is applied all the same.  When no connector names a
    root CA secret, neither marshaller is consulted and both texts are
    empty. *)
Theorem syncDeployment_volumes_yaml (dexServer : DexServer) (image : string)
    (w w1 w2 : W) (found : Result ConfigMap) (bundle : Result Secret) :
  getDexImagePullSpec = inl image →
  Get_ConfigMap (mkNN (dsNamespace dexServer) (dsName dexServer)) w
  = (w1, found) →
  match found with
  | inl dexConfigMap =>
       ∃ jsonData, json_Marshal_ConfigMap dexConfigMap = inl jsonData
  | inr err => IsNotFound err = true
  end →
  getMTLSSecret dexServer w1 = (w2, bundle) →
  (∀ e, bundle = inr e → IsNotFound e = true) →
  let mounts := (ldapVolumes (Connectors (Spec dexServer))).1 in
  let volumes := (ldapVolumes (Connectors (Spec dexServer))).2 in
  ∃ v,
    syncDeployment dexServer w
    = ApplyDeployments dexServer (DeploymentTemplateValues v)
        ["dex-server/deployment.yaml"] w2
    ∧ AdditionalVolumeMounts v
      = (if decide (mounts = []) then ""
         else match yaml_Marshal_VolumeMounts mounts with
              | inl text => text
              | inr _ => ""
              end)
    ∧ AdditionalVolumes v
      = (if decide (mounts = []) then ""
         else match yaml_Marshal_Volumes volumes with
              | inl text => text
              | inr _ => ""
              end).
Proof.
  intros Himage Hcm Hfound Hget Hbundle. cbn zeta.
  eexists. split; [by eapply syncDeployment_values|].
  cbn [AdditionalVolumeMounts AdditionalVolumes]. done.
Qed.

(** X12. The expiry that [defineMTLSSecret] writes on the bundle is what
    [syncDeployment] puts on the pod template.  With the bundle of a chain
    in the cluster, the template values carry the expiry of the chain in
    RFC 3339 and the pod template is annotated with it, so a bundle with
    another expiry instant gives another pod template; with no bundle, or
    one without the annotation, the pod template has no such annotation.
    The values also name the bundle that [getMTLSSecret] reads, the
    serving certificate that [syncService] requests and the service
    account that [syncServiceAccount] creates. *)
Theorem syncDeployment_mtls_expiry (dexServer : DexServer) (image : string)
    (w w1 w2 : W) (found : Result ConfigMap) (bundle : Result Secret) :
  getDexImagePullSpec = inl image →
  Get_ConfigMap (mkNN (dsNamespace dexServer) (dsName dexServer)) w
  = (w1, found) →
  match found with
  | inl dexConfigMap =>
       ∃ jsonData, json_Marshal_ConfigMap dexConfigMap = inl jsonData
  | inr err => IsNotFound err = true
  end →
  getMTLSSecret dexServer w1 = (w2, bundle) →
  (∀ e, bundle = inr e → IsNotFound e = true) →
  ∃ v,
    syncDeployment dexServer w
    = ApplyDeployments dexServer (DeploymentTemplateValues v)
        ["dex-server/deployment.yaml"] w2
    ∧ DexImage v = image
    ∧ dvDexServer v = dexServer
    ∧ mkNN (dsNamespace dexServer) (MtlsSecretName v)
      = mkNN (dsNamespace dexServer) SECRET_MTLS_NAME
    ∧ syncService dexServer
      = ApplyDirectly dexServer (ServiceValues (TlsSecretName v) dexServer)
          ["dex-server/service_http.yaml"]
    ∧ syncServiceAccount dexServer
      = ApplyDirectly dexServer
          (ServiceAccountValues (dvServiceAccountName v) dexServer)
          ["dex-server/service_account.yaml"]
    ∧ (∀ certs, bundle = inl (defineMTLSSecret dexServer certs) →
         MtlsSecretExpiry v = time.Format_RFC3339 (UTC (expiry certs))
         ∧ podTemplateAnnotations v !! "auth.identitatem.io/grpcMtlsExpiry"
           = Some (time.Format_RFC3339 (UTC (expiry certs))))
    ∧ (match bundle with
       | inl secret =>
           Annotations (secMeta secret) !! MTLS_CERT_EXPIRY_ANNOTATION = None
       | inr _ => True
       end →
       podTemplateAnnotations v !! "auth.identitatem.io/grpcMtlsExpiry" = None).
Proof.
  intros Himage Hcm Hfound Hget Hbundle.
  assert (Hformat : ∀ t, time.Format_RFC3339 (UTC t) ≠ "").
  { intros t Hempty. destruct (Format_RFC3339_UTC t) as (s & Hs & Hlen).
    rewrite Hs in Hempty. apply (f_equal String.length) in Hempty.
    rewrite length_append in Hempty. cbn in Hempty. lia. }
  eexists. split; [by eapply syncDeployment_values|].
  cbn [DexImage dvDexServer MtlsSecretName TlsSecretName dvServiceAccountName
       MtlsSecretExpiry].
  split_and!; try reflexivity.
  - intros certs ->.
    assert (Hann : index (Annotations (secMeta (defineMTLSSecret dexServer certs)))
                     MTLS_CERT_EXPIRY_ANNOTATION
                   = time.Format_RFC3339 (UTC (expiry certs))).
    { unfold defineMTLSSecret, index. cbn [secMeta Annotations].
      by simplify_map_eq. }
    unfold podTemplateAnnotations. cbn [MtlsSecretExpiry]. rewrite Hann.
    split; [reflexivity|].
    rewrite (decide_True (P := time.Format_RFC3339 _ ≠ "")) by apply Hformat.
    by simplify_map_eq.
  - intros Hnone. unfold podTemplateAnnotations.
    cbn [MtlsSecretExpiry DexConfigMapHash].
    assert (Hexpiry : match bundle with
                      | inl mtlsSecret =>
                          index (Annotations (secMeta mtlsSecret))
                            MTLS_CERT_EXPIRY_ANNOTATION
                      | inr _ => ""
                      end = "").
    { destruct bundle as [mtlsSecret|e]; [|reflexivity].
      unfold index. by rewrite Hnone. }
    rewrite Hexpiry.
    rewrite (decide_False (P := "" ≠ "")) by (intros Hne; by apply Hne).
    case_decide; by simplify_map_eq.
Qed.

End DeploymentSteps.

(** ** The restart predicate, one deployment among others *)

Module RestartRecords.
Import ignoreDeploymentRestartPredicate.

(** The verdict on an event and what the event does to the record of any
    deployment depend on the record of its own deployment only. *)
Lemma UpdateFunc_agree (e : UpdateEvent) (m m' : gmap string Z) (k : string) :
  m !! namespacedName e = m' !! namespacedName e →
  (UpdateFunc e m).2 = (UpdateFunc e m').2
  ∧ (m !! k = m' !! k → (UpdateFunc e m).1 !! k = (UpdateFunc e m').1 !! k).
Proof.
  intros Hkey. unfold UpdateFunc.
  destruct (OwnerReferences (depMeta (ObjectOld e))) as [|owner rest]; [done|].
  case_decide; [done|].
  rewrite <- Hkey.
  destruct (m !! namespacedName e) as [g|] eqn:Hm.
  - case_decide; [done|]. unfold detectRestart.
    destruct (depTemplateAnnotations (ObjectNew e) !! restartedAt) as [v|].
    + destruct (_ || _); cbn [fst snd]; (split; [done|]); intros Hk;
        destruct (decide (k = namespacedName e)) as [->|Hne];
        by simplify_map_eq.
    + cbn [fst snd]. split; [done|]. intros Hk.
      destruct (decide (k = namespacedName e)) as [->|Hne]; by simplify_map_eq.
  - unfold detectRestart.
    destruct (depTemplateAnnotations (ObjectNew e) !! restartedAt) as [v|].
    + destruct (_ || _); cbn [fst snd]; (split; [done|]); intros Hk;
        destruct (decide (k = namespacedName e)) as [->|Hne];
        by simplify_map_eq.
    + done.
Qed.

Lemma UpdateFunc_frame (e : UpdateEvent) (m : gmap string Z) (k : string) :
  k ≠ namespacedName e → (UpdateFunc e m).1 !! k = m !! k.
Proof.
  intros Hne. unfold UpdateFunc.
  destruct (OwnerReferences (depMeta (ObjectOld e))) as [|owner rest]; [done|].
  case_decide; [done|].
  destruct (m !! namespacedName e) as [g|] eqn:Hm.
  - case_decide; [done|]. unfold detectRestart.
    destruct (depTemplateAnnotations (ObjectNew e) !! restartedAt) as [v|];
      [destruct (_ || _)|]; cbn [fst]; by simplify_map_eq.
  - unfold detectRestart.
    destruct (depTemplateAnnotations (ObjectNew e) !! restartedAt) as [v|];
      [destruct (_ || _)|]; cbn [fst]; by simplify_map_eq.
Qed.


(** X14. What one call leaves on record.  An event that passes leaves no
    record for its deployment, and it comes from a deployment whose first
    owner is a DexServer.  An event on such a deployment that is dropped
    leaves its generation on record, whatever was there.  An event on a
    deployment with no owner, or whose first owner is of another kind, is
    dropped and the map is not touched, even when a later owner is a
    DexServer. *)
Theorem UpdateFunc_record (e : UpdateEvent) (m : gmap string Z) :
  (UpdateFunc e m).2 = true ∧ owned e
    ∧ (UpdateFunc e m).1 !! namespacedName e = None
  ∨ (UpdateFunc e m).2 = false ∧ owned e
    ∧ (UpdateFunc e m).1 !! namespacedName e
      = Some (Generation (depMeta (ObjectNew e)))
  ∨ (UpdateFunc e m).2 = false ∧ ¬ owned e ∧ (UpdateFunc e m).1 = m.
Proof.
  unfold UpdateFunc.
  destruct (OwnerReferences (depMeta (ObjectOld e))) as [|owner rest] eqn:Hrefs.
  { right. right. split_and!; [done| |done]. intros (? & ? & Hown & _).
    rewrite Hrefs in Hown. discriminate. }
  case_decide as Hkind.
  { right. right. split_and!; [done| |done]. intros (? & ? & Hown & Hk).
    rewrite Hrefs in Hown. by injection Hown as <- <-. }
  assert (Hown : owned e).
  { exists owner, rest. split; [done|].
    by destruct (decide (orKind owner = "DexServer")). }
  destruct (m !! namespacedName e) as [g|] eqn:Hm.
  - case_decide as Hg; [right; left; by subst|].
    unfold detectRestart.
    destruct (depTemplateAnnotations (ObjectNew e) !! restartedAt) as [v|];
      [destruct (_ || _)|]; cbn [fst snd].
    + right. left. by simplify_map_eq.
    + left. by simplify_map_eq.
    + left. by simplify_map_eq.
  - unfold detectRestart.
    destruct (depTemplateAnnotations (ObjectNew e) !! restartedAt) as [v|];
      [destruct (_ || _)|]; cbn [fst snd].
    + right. left. by simplify_map_eq.
    + by left.
    + by left.
Qed.

End RestartRecords.

(** ** The status merge, twice *)

Section MergeAgain.
Context {W : Type} `{Runtime W}.

(** The search reads the types only. *)
Lemma FindStatusCondition_types (l l' : list Condition) (t : string) :
  Type_ <$> l = Type_ <$> l' →
  FindStatusCondition l t = FindStatusCondition l' t.
Proof.
  revert l'. induction l as [|c l IH]; intros [|c' l'] Hty; try done.
  cbn [fmap list_fmap] in Hty. injection Hty as Hc Hl.
  cbn [FindStatusCondition]. rewrite Hc, (IH l' Hl). reflexivity.
Qed.

Lemma FindStatusCondition_snoc (l : list Condition) (c : Condition) :
  Type_ c ∉ Type_ <$> l →
  FindStatusCondition (l ++ [c]) (Type_ c) = Some (length l).
Proof.
  induction l as [|c0 l IH]; cbn [app FindStatusCondition fmap list_fmap length].
  - intros _. by rewrite decide_True.
  - rewrite not_elem_of_cons. intros [Hne Hl].
    rewrite decide_False by congruence. by rewrite (IH Hl).
Qed.

(** When the record found has the status of the update, the clock is not
    read and the record takes the reason and the message. *)
Lemma SetStatusCondition_same_status (conditions : list Condition)
    (u e : Condition) (i : nat) (w : W) :
  FindStatusCondition conditions (Type_ u) = Some i →
  conditions !! i = Some e →
  Status e = Status u →
  SetStatusCondition conditions u w
  = (w, <[i := mkCondition (Type_ e) (Status e) (LastTransitionTime e)
                 (Reason u) (Message u)]> conditions).
Proof.
  intros Hfind Hi Hstatus. unfold SetStatusCondition.
  rewrite Hfind, Hi. cbn [default].
  by rewrite decide_False by (intros Hne; by apply Hne).
Qed.

(** X15. Merging the update that was merged last changes nothing: the
    conditions come back as they are and the clock is not read, whatever
    the conditions were before the first merge and whenever the second
    merge is made.  So a pass that ends as the one before it writes the
    status it found, and the transition time of the condition stays that
    of the first pass.  One update adds at most one record and removes
    none. *)
Theorem mergeStatusConditions_again (conditions : list Condition) (u : Condition)
    (w w' : W) :
  mergeStatusConditions (mergeStatusConditions conditions [u] w).2 [u] w'
  = (w', (mergeStatusConditions conditions [u] w).2)
  ∧ (length conditions
     ≤ length (mergeStatusConditions conditions [u] w).2
     ≤ S (length conditions))%nat.
Proof.
  rewrite !mergeStatusConditions_one.
  destruct (FindStatusCondition conditions (Type_ u)) as [i|] eqn:Hfind.
  - pose proof Hfind as Hsome.
    apply FindStatusCondition_Some in Hsome as [(e & Hi & Ht) _].
    rewrite (SetStatusCondition_present _ _ e i w Hfind Hi).
    split; [|rewrite length_insert; lia].
    assert (Hi' : (<[i := overwritten (time_Now w).2 e u]> conditions) !! i
                  = Some (overwritten (time_Now w).2 e u)).
    { apply list_lookup_insert_eq. by eapply lookup_lt_Some. }
    rewrite (SetStatusCondition_same_status _ u (overwritten (time_Now w).2 e u)
               i w'); [| |exact Hi'|reflexivity].
    + f_equal. rewrite list_insert_insert_eq. reflexivity.
    + rewrite <- Hfind. apply FindStatusCondition_types.
      rewrite list_fmap_insert. apply list_insert_id.
      rewrite list_lookup_fmap, Hi. reflexivity.
  - apply FindStatusCondition_None in Hfind.
    rewrite (SetStatusCondition_absent _ _ w Hfind).
    split; [|rewrite length_app; cbn; lia].
    assert (Hty : Type_ (stamped (time_Now w).2 u) = Type_ u).
    { unfold stamped. by destruct (IsZero _). }
    assert (Hst : Status (stamped (time_Now w).2 u) = Status u).
    { unfold stamped. by destruct (IsZero _). }
    rewrite (SetStatusCondition_same_status _ u (stamped (time_Now w).2 u)
               (length conditions) w'); [| |by apply list_lookup_middle|exact Hst].
    + f_equal. apply list_insert_id.
      rewrite list_lookup_middle by done. f_equal.
      unfold stamped. destruct (IsZero _); [reflexivity | by destruct u].
    + rewrite <- Hty. apply FindStatusCondition_snoc. by rewrite Hty.
Qed.

End MergeAgain.

(** ** The pass, whatever the steps do *)

Section Outcome.
Context `{GoLib} {W : Type} `{Runtime W}.


(** X17. An error of [manageMTLSSecret] always names the stage that
    failed: it is the cause wrapped in one of four texts, for the lookup,
    the generation, the creation and the update, and it counts as
    not-found exactly when its cause does. *)
Theorem manageMTLSSecret_errors (dexServer : DexServer) (w w' : W) (err : error) :
  manageMTLSSecret dexServer w = (w', Some err) →
  ∃ cause text,
    text ∈ mtlsErrorTexts
    ∧ err = Wrap cause text
    ∧ Error err = text +:+ ": " +:+ Error cause
    ∧ IsNotFound err = IsNotFound cause.
Proof.
  assert (Hwrap : ∀ cause text (w1 w2 : W) e,
    text ∈ mtlsErrorTexts →
    (w1, Some (Wrap cause text)) = (w2, Some e) →
    ∃ cause text,
      text ∈ mtlsErrorTexts ∧ e = Wrap cause text
      ∧ Error e = text +:+ ": " +:+ Error cause
      ∧ IsNotFound e = IsNotFound cause).
  { intros cause text w1 w2 e Hin [= _ <-]. by exists cause, text. }
  intros Hrun. unfold manageMTLSSecret in Hrun. cbn zeta in Hrun. unfold_M.
  repeat match type of Hrun with
         | context [match ?x with _ => _ end] => destruct x
         end;
    cbn beta iota in Hrun; try discriminate;
    (eapply Hwrap; [|exact Hrun]);
    unfold mtlsErrorTexts; rewrite !elem_of_cons; tauto.
Qed.

(** X18. The cluster role binding is named after the namespace of the
    instance: instances in one namespace share a binding and instances in
    two namespaces never do.  It binds the service account that
    [syncServiceAccount] creates to the cluster role of the same name. *)
Theorem syncClusterRoleBinding_per_namespace (m m' : DexServer) :
  ∃ name name',
    syncClusterRoleBinding m
    = ApplyDirectly m
        (ClusterRoleBindingValues SERVICE_ACCOUNT_NAME SERVICE_ACCOUNT_NAME name m)
        ["dex-server/cluster_role_binding.yaml"]
    ∧ syncClusterRoleBinding m'
      = ApplyDirectly m'
          (ClusterRoleBindingValues SERVICE_ACCOUNT_NAME SERVICE_ACCOUNT_NAME
             name' m')
          ["dex-server/cluster_role_binding.yaml"]
    ∧ syncServiceAccount m
      = ApplyDirectly m (ServiceAccountValues SERVICE_ACCOUNT_NAME m)
          ["dex-server/service_account.yaml"]
    ∧ (name = name' ↔ dsNamespace m = dsNamespace m').
Proof.
  eexists _, _. split_and!; [reflexivity..|].
  split; [|by intros ->].
  intros Heq. by do 2 apply append_inj_r in Heq.
Qed.

End Outcome.

(** ** The digits of the fingerprint *)

Lemma hexdigit_lowercase (c : ascii) :
  SHA256.hexdigit (SHA256.byte_of_ascii c / 16)
    ∈ list_ascii_of_string "0123456789abcdef"
  ∧ SHA256.hexdigit (SHA256.byte_of_ascii c mod 16)
    ∈ list_ascii_of_string "0123456789abcdef".
Proof.
  destruct c as [[] [] [] [] [] [] [] []];
    (split; apply (bool_decide_unpack _); vm_compute; exact I).
Qed.

(** X19. The fingerprint of the config map is written in the digits [0]
    to [9] and the lower-case letters [a] to [f] only. *)
Theorem configHash_lowercase_hex (jsonData : string) :
  Forall (λ c, c ∈ list_ascii_of_string "0123456789abcdef")
    (list_ascii_of_string (configHash jsonData)).
Proof.
  unfold configHash. induction (SHA256.Sum jsonData) as [|c l IH].
  - constructor.
  - cbn [SHA256.hex list_ascii_of_string].
    destruct (hexdigit_lowercase c) as [Hhi Hlo].
    constructor; [exact Hhi|]. constructor; [exact Hlo | exact IH].
Qed.

(** ** Runs against a script *)

Section ScriptedRuns.
Import Scenario Cases.
#[local] Existing Instance lib.

(** The secret of the GitHub connector lacks the label and is updated
    once; that of the directory has it and is only read. *)
Lemma getConnectorSecretFromRef_found_labels_witness :
  let s := script credentials (λ _, inr missing) (inl chain) in
  Scripted.run s (λ _, getConnectorSecretFromRef github withLDAP)
  = ([Scripted.GetSecret (mkNN "idp" "github-oauth");
      Scripted.UpdateSecret (set_Label oauthSecret IDP_CREDENTIAL_LABEL "")],
     ("s3cr3t", None))
  ∧ Scripted.run s (λ _, getConnectorSecretFromRef ldap withLDAP)
    = ([Scripted.GetSecret (mkNN "idp" "ldap-bind")], ("b1nd", None)).
Proof.
  cbn zeta. unfold Scripted.run.
  set (r := Scripted.runtime (script credentials (λ _, inr missing) (inl chain))).
  assert (Hgithub : @Get_Secret _ r
            (credentialKey (mkSecretReference "github-oauth" "") withLDAP) []
          = ([Scripted.GetSecret (mkNN "idp" "github-oauth")], inl oauthSecret))
    by (vm_compute; reflexivity).
  assert (Hldap : @Get_Secret _ r
            (credentialKey (mkSecretReference "ldap-bind" "") withLDAP) []
          = ([Scripted.GetSecret (mkNN "idp" "ldap-bind")], inl bindSecret))
    by (vm_compute; reflexivity).
  split.
  - rewrite (getConnectorSecretFromRef_found_labels github withLDAP
               (mkSecretReference "github-oauth" "") "clientSecret" oauthSecret
               [] _ eq_refl Hgithub).
    vm_compute. reflexivity.
  - rewrite (getConnectorSecretFromRef_found_labels ldap withLDAP
               (mkSecretReference "ldap-bind" "") "bindPW" bindSecret
               [] _ eq_refl Hldap).
    vm_compute. reflexivity.
Defined.

(** The connector after GitHub is of an unknown type: the secret of
    GitHub is read and labelled, that of the directory is not read, and
    nothing is applied. *)
Lemma syncConfigMap_unknown_type_witness :
  let s := script credentials (λ _, inr missing) (inl chain) in
  Connectors (Spec withSAML) = [github] ++ saml :: [ldap]
  ∧ connType saml = ConnectorTypeOther "saml"
  ∧ Scripted.run s (λ _, getConnectorSecretFromRef saml withSAML)
    = ([], ("", Some (Errorf "could not retrieve secret")))
  ∧ Scripted.run s (λ _, syncConfigMap withSAML)
    = ([Scripted.GetSecret (mkNN "idp" "github-oauth");
        Scripted.UpdateSecret (set_Label oauthSecret IDP_CREDENTIAL_LABEL "")],
       None).
Proof.
  cbn zeta. unfold Scripted.run.
  set (r := Scripted.runtime (script credentials (λ _, inr missing) (inl chain))).
  destruct (syncConfigMap_unknown_type (H0 := r) withSAML [github] [ldap] saml
              "saml" [] eq_refl eq_refl) as [Hsecret Hsync].
  split_and!; [reflexivity | reflexivity | exact Hsecret |].
  rewrite Hsync. vm_compute. reflexivity.
Defined.

(** GitHub and the directory are rendered in the order of the spec. *)
Lemma syncConfigMap_range_renders_witness :
  let s := script credentials (λ _, inr missing) (inl chain) in
  let run := Scripted.run s (λ _, syncConfigMap_range withLDAP [github; ldap] []) in
  is_Some run.2
  ∧ dcId <$> default [] run.2 = ["github"; "ldap"]
  ∧ dcName <$> default [] run.2 = ["GitHub"; "LDAP"]
  ∧ dcType <$> default [] run.2 = ["github"; "ldap"]
  ∧ length (default [] run.2) = 2%nat.
Proof.
  cbn zeta. unfold Scripted.run.
  set (r := Scripted.runtime (script credentials (λ _, inr missing) (inl chain))).
  destruct (@syncConfigMap_range _ r withLDAP [github; ldap] [] [])
    as [w' [rendered|]] eqn:Hrun; [|vm_compute in Hrun; discriminate].
  destruct (syncConfigMap_range_renders (H0 := r) withLDAP [github; ldap] []
              rendered [] w' Hrun) as (Hlen & Hids & Hnames & Htypes & _).
  cbn [snd default]. split_and!; [by eexists | done..].
Defined.


(** The config map cannot be read, then the bundle cannot: each time the
    error comes back and nothing is applied. *)
Lemma syncDeployment_read_errors_witness :
  let s := script credentials (λ _, inr refused) (inl chain) in
  let s' := script (λ _, inr refused) (λ _, inr missing) (inl chain) in
  getDexImagePullSpec = inl image
  ∧ Scripted.run s (λ _, syncDeployment withLDAP)
    = ([Scripted.GetConfigMap (mkNN "idp" "dex")], Some refused)
  ∧ Scripted.run s' (λ _, syncDeployment withLDAP)
    = ([Scripted.GetConfigMap (mkNN "idp" "dex");
        Scripted.GetSecret (mkNN "idp" "grpc-mtls")],
       Some (mkError "error getting dex server grpc mtls secret: connection refused"
               false)).
Proof.
  cbn zeta. unfold Scripted.run.
  assert (Himage : getDexImagePullSpec = inl image) by (vm_compute; reflexivity).
  split_and!; [exact Himage | |].
  - exact (proj1 (syncDeployment_read_errors
                    (H0 := Scripted.runtime
                             (script credentials (λ _, inr refused) (inl chain)))
                    withLDAP image [] Himage)
             _ refused eq_refl eq_refl).
  - exact (proj2 (proj2 (syncDeployment_read_errors
                    (H0 := Scripted.runtime
                             (script (λ _, inr refused) (λ _, inr missing)
                                (inl chain)))
                    withLDAP image [] Himage))
             _ (inr missing) _ refused eq_refl eq_refl eq_refl eq_refl).
Defined.

(** The directory names a root CA, so there is a volume to marshal; the
    marshaller fails, and the deployment is applied without the volume. *)
Lemma syncDeployment_volumes_yaml_witness :
  let s := script credentials (λ _, inr missing) (inl chain) in
  @getDexImagePullSpec brokenYaml = inl image
  ∧ (ldapVolumes (Connectors (Spec withLDAP))).1 ≠ []
  ∧ ∃ v,
      Scripted.run s (λ _, @syncDeployment brokenYaml _ _ withLDAP)
      = ([Scripted.GetConfigMap (mkNN "idp" "dex");
          Scripted.GetSecret (mkNN "idp" "grpc-mtls");
          Scripted.Apply (DeploymentTemplateValues v) ["dex-server/deployment.yaml"]],
         None)
      ∧ AdditionalVolumeMounts v = ""
      ∧ AdditionalVolumes v = "".
Proof.
  cbn zeta. unfold Scripted.run.
  set (r := Scripted.runtime (script credentials (λ _, inr missing) (inl chain))).
  assert (Himage : @getDexImagePullSpec brokenYaml = inl image)
    by (vm_compute; reflexivity).
  assert (Hget : @getMTLSSecret _ r withLDAP [Scripted.GetConfigMap (mkNN "idp" "dex")]
                 = ([Scripted.GetConfigMap (mkNN "idp" "dex");
                     Scripted.GetSecret (mkNN "idp" "grpc-mtls")], inr missing))
    by (vm_compute; reflexivity).
  split_and!; [exact Himage | by vm_compute |].
  destruct (syncDeployment_volumes_yaml (H := brokenYaml) (H0 := r) withLDAP image
              [] _ _ (inr missing) (inr missing) Himage eq_refl eq_refl Hget)
    as (v & Hrun & Hmounts & Hvolumes).
  { by intros e [= <-]. }
  exists v. rewrite Hrun. split_and!.
  - reflexivity.
  - rewrite Hmounts. vm_compute. reflexivity.
  - rewrite Hvolumes. vm_compute. reflexivity.
Defined.

(** The bundle of a chain that expires on 9 November 2022 is in place. *)
Lemma syncDeployment_mtls_expiry_witness :
  let s := script (named [("grpc-mtls", defineMTLSSecret withLDAP chain)])
             (λ _, inr missing) (inl chain) in
  getDexImagePullSpec = inl image
  ∧ ∃ v,
      Scripted.run s (λ _, syncDeployment withLDAP)
      = ([Scripted.GetConfigMap (mkNN "idp" "dex");
          Scripted.GetSecret (mkNN "idp" "grpc-mtls");
          Scripted.Apply (DeploymentTemplateValues v) ["dex-server/deployment.yaml"]],
         None)
      ∧ MtlsSecretExpiry v = "2022-11-09T13:00:00Z"
      ∧ podTemplateAnnotations v !! "auth.identitatem.io/grpcMtlsExpiry"
        = Some "2022-11-09T13:00:00Z"
      ∧ podTemplateAnnotations v !! "auth.identitatem.io/configHash" = None.
Proof.
  cbn zeta. unfold Scripted.run.
  set (r := Scripted.runtime
              (script (named [("grpc-mtls", defineMTLSSecret withLDAP chain)])
                 (λ _, inr missing) (inl chain))).
  assert (Himage : getDexImagePullSpec = inl image) by (vm_compute; reflexivity).
  assert (Hget : @getMTLSSecret _ r withLDAP [Scripted.GetConfigMap (mkNN "idp" "dex")]
                 = ([Scripted.GetConfigMap (mkNN "idp" "dex");
                     Scripted.GetSecret (mkNN "idp" "grpc-mtls")],
                    inl (defineMTLSSecret withLDAP chain)))
    by (vm_compute; reflexivity).
  split; [exact Himage|].
  destruct (syncDeployment_mtls_expiry (H0 := r) withLDAP image
              [] _ _ (inr missing) _ Himage eq_refl eq_refl Hget)
    as (v & Hrun & _ & _ & _ & _ & _ & Hexpiry & _).
  { intros e [=]. }
  destruct (Hexpiry chain eq_refl) as [Hvalue Hannotation].
  assert (Hformat : time.Format_RFC3339 (UTC (expiry chain)) = "2022-11-09T13:00:00Z")
    by (vm_compute; reflexivity).
  assert (Hhash : podTemplateAnnotations v !! "auth.identitatem.io/configHash" = None).
  { pose proof Hrun as Hv. vm_compute in Hv.
    injection Hv as Hv. rewrite <- Hv. vm_compute. reflexivity. }
  exists v. rewrite Hrun. split_and!; [reflexivity | | | exact Hhash].
  - by rewrite Hvalue, Hformat.
  - by rewrite Hannotation, Hformat.
Defined.


(** No bundle, and the chain cannot be generated. *)
Lemma manageMTLSSecret_errors_witness :
  let s := script credentials (λ _, inr missing) (inr refused) in
  Scripted.run s (λ _, manageMTLSSecret withLDAP)
  = ([Scripted.GetSecret (mkNN "idp" "grpc-mtls");
      Scripted.GenerateMTLSCerts "idp"],
     Some (mkError "error generating mtls certs: connection refused" false))
  ∧ ∃ cause text,
      text ∈ mtlsErrorTexts
      ∧ mkError "error generating mtls certs: connection refused" false
        = Wrap cause text
      ∧ "error generating mtls certs: connection refused"
        = text +:+ ": " +:+ Error cause
      ∧ false = IsNotFound cause.
Proof.
  cbn zeta. unfold Scripted.run.
  set (r := Scripted.runtime (script credentials (λ _, inr missing) (inr refused))).
  assert (Hrun : @manageMTLSSecret _ _ r withLDAP []
                 = ([Scripted.GetSecret (mkNN "idp" "grpc-mtls");
                     Scripted.GenerateMTLSCerts "idp"],
                    Some (mkError "error generating mtls certs: connection refused"
                            false)))
    by (vm_compute; reflexivity).
  split; [exact Hrun|].
  exact (manageMTLSSecret_errors (H0 := r) withLDAP [] _ _ Hrun).
Defined.

End ScriptedRuns.
